(** * r.change.stats: change detection between two classification rasters

    A shallow embedding of [r.change.stats.py] (mundialis, GRASS GIS addon)
    and the properties of its transition encoding, decoding, dense
    remapping, label handling and statistics table.

    The raster engine (GRASS) is an external collaborator.  What it answers
    to the script's queries is collected in the record [Engine]; what the
    script asks it to do is recorded as a trace of [event]s.  The cell-level
    meaning of [r.reclass] and of the [r.mapcalc] expression the script
    builds is given by [r_reclass] and [eval]. *)

From Stdlib Require Import ZArith QArith Ascii String DecimalString DecimalZ.
From stdpp Require Import base option list sets strings sorting.

Local Open Scope Z_scope.

(** ** Python values and builtins used by the script *)

Module Py.

(** Exceptions the script can run into. *)
Inductive exn := ValueError | IndexError | OSError | CsvError.

Definition tab : ascii := "009"%char.
Definition newline : ascii := "010"%char.
Definition nl : string := String newline "".

(** Truth value of a string: [if s:]. *)
Definition truthy (s : string) : bool := negb (String.eqb s "").

(** [s.split(sep)] for a one-character separator. *)
Fixpoint split (sep : ascii) (s : string) : list string :=
  match s with
  | EmptyString => [""]
  | String ch s' =>
      if Ascii.eqb ch sep then "" :: split sep s'
      else match split sep s' with
           | w :: ws => String ch w :: ws
           | [] => [String ch ""]
           end
  end.

(** [sep.join(l)]. *)
Fixpoint join (sep : string) (l : list string) : string :=
  match l with
  | [] => ""
  | [x] => x
  | x :: xs => x +:+ sep +:+ join sep xs
  end.

(** [str(n)] and ["%s" % n], ["%d" % n] for an integer. *)
Definition str (n : Z) : string := NilZero.string_of_int (Z.to_int n).

(** [int(s)] on a decimal literal (optional minus sign, then digits);
    [None] stands for [ValueError]. *)
Definition int (s : string) : option Z :=
  Z.of_int <$> NilZero.int_of_string s.

(** [l.index(x)]; [None] stands for [ValueError]. *)
Fixpoint index `{EqDecision A} (x : A) (l : list A) : option nat :=
  match l with
  | [] => None
  | y :: l' => if decide (x = y) then Some 0%nat else S <$> index x l'
  end.

(** [x in l]. *)
Definition contains `{EqDecision A} (x : A) (l : list A) : bool :=
  bool_decide (x ∈ l).

(** [list(set(l))] leaves the order to the hash table; duplicates go. *)
Definition distinct `{EqDecision A} (l : list A) : list A := remove_dups l.

(** [len(set(l))]. *)
Definition len_set `{EqDecision A} (l : list A) : nat := length (remove_dups l).

End Py.

(** [list.sort()] on strings: code-point order. *)
Definition str_le (x y : string) : Prop := String.leb x y = true.

#[global] Instance str_le_dec : RelDecision str_le.
Proof. intros x y. unfold str_le. apply _. Defined.

Definition sort_strings (l : list string) : list string := merge_sort str_le l.

(** ** Runs: a trace of effects and how the run ended *)

Inductive event :=
  | Warning (msg : string)                       (* grass.warning *)
  | Message (msg : string)                       (* grass.message *)
  | RunCommand (prog : string) (args : list (string * string))
  | FeedCommand (prog : string) (args : list (string * string)) (stdin : string)
  | Print (text : string)
  | WriteFile (path : string) (text : string).

Inductive outcome (A : Type) :=
  | Done (a : A)
  | Fatal (msg : string)                         (* grass.fatal *)
  | Raised (e : Py.exn).                         (* uncaught exception *)
Arguments Done {A} a.
Arguments Fatal {A} msg.
Arguments Raised {A} e.

Record run (A : Type) := Run { trace : list event; result : outcome A }.
Arguments Run {A} trace result.
Arguments trace {A} r.
Arguments result {A} r.

#[global] Instance run_ret : MRet run := λ A a, Run [] (Done a).

#[global] Instance run_bind : MBind run := λ A B k m,
  match result m with
  | Done a => let r := k a in Run (trace m ++ trace r) (result r)
  | Fatal msg => Run (trace m) (Fatal msg)
  | Raised e => Run (trace m) (Raised e)
  end.

#[global] Instance run_fmap : FMap run := λ A B f m, a ← m; mret (f a).

Definition emit (e : event) : run () := Run [e] (Done ()).
Definition fatal {A} (msg : string) : run A := Run [] (Fatal msg).
Definition raise {A} (e : Py.exn) : run A := Run [] (Raised e).

(** An [option] whose [None] is the exception [e]. *)
Definition or_raise {A} (e : Py.exn) (o : option A) : run A :=
  match o with Some a => mret a | None => raise e end.

(** [try: m except Exception: handler]; [grass.fatal] exits and is not caught. *)
Definition try_except {A} (m : run A) (handler : run A) : run A :=
  match result m with
  | Raised _ => Run (trace m ++ trace handler) (result handler)
  | _ => m
  end.

(** A [for] loop that threads an accumulator. *)
Fixpoint for_each {A S} (body : S → A → run S) (l : list A) (s : S) : run S :=
  match l with
  | [] => mret s
  | x :: l' => s' ← body s x; for_each body l' s'
  end.

(** ** The raster engine at the level of one cell

    A cell holds an integer category or is null ([None]).  [r.category]
    prints a category as its decimal literal, and [r.reclass] reads the
    literals back from the rules it is fed. *)

(** The part of a reclass rule's right side that is the new category: the
    text before the first blank (what follows is the label). *)
Definition first_word (s : string) : string := hd "" (Py.split " " s).

(** [r.reclass] with the rules [values_in[i] = values_out[i]]: a cell whose
    category is listed gets the new category, any other cell becomes null. *)
Definition r_reclass (values_in values_out : list string) (cell : Z) : option Z :=
  idx ← Py.index (Py.str cell) values_in;
  out ← values_out !! idx;
  Py.int (first_word out).

(** Modelled from the spec: the runtime's numeric-epsilon constant
    [grass.lib.gis.GRASS_EPSILON], defined outside this repository
    (GRASS's [gis.h] has it as 1.0e-15). *)
Definition GRASS_EPSILON : Q := 1 # 1000000000000000.

(** Left-pad with zeros to [width] characters. *)
Definition zfill (width : nat) (s : string) : string :=
  String.concat "" (replicate (width - String.length s) "0") +:+ s.

(** ["%01.16f" % q] for a non-negative [q]: sixteen decimals. *)
Definition format_01_16f (q : Q) : string :=
  let scale := 10 ^ 16 in
  let m := (2 * Qnum q * scale + Z.pos (Qden q)) / (2 * Z.pos (Qden q)) in
  Py.str (m / scale) +:+ "." +:+ zfill 16 (Py.str (m mod scale)).

(** The value [r.mapcalc] reads from such a literal. *)
Definition literal_01_16f (q : Q) : Q :=
  let scale := 10 ^ 16 in
  ((2 * Qnum q * scale + Z.pos (Qden q)) / (2 * Z.pos (Qden q))) # 10000000000000000.

(** The fragment of the [r.mapcalc] language the script writes. *)
Inductive mapcalc :=
  | MMap (name : string)
  | MInt (n : Z)
  | MAdd (a b : mapcalc)
  | MSub (a b : mapcalc)
  | MAbs (a : mapcalc)
  | MIfLess (x : mapcalc) (bound : Q) (a b : mapcalc).   (* if( x < bound, a, b) *)

Fixpoint render (e : mapcalc) : string :=
  match e with
  | MMap name => name
  | MInt n => Py.str n
  | MAdd a b => render a +:+ " + " +:+ render b
  | MSub a b => render a +:+ " - " +:+ render b
  | MAbs a => "abs(" +:+ render a +:+ ")"
  | MIfLess x bound a b =>
      "if( " +:+ render x +:+ " < " +:+ format_01_16f bound +:+ ", "
      +:+ render a +:+ ", " +:+ render b +:+ ")"
  end.

(** [x < bound] for an integer cell and a decimal literal. *)
Definition less_than (x : Z) (bound : Q) : bool :=
  negb (Qle_bool (literal_01_16f bound) (inject_Z x)).

(** Cell-wise evaluation over the rasters [ρ]; a null operand makes the
    result null, and [if] is null when its condition or the branch it
    selects is. *)
Fixpoint eval (ρ : string → option Z) (e : mapcalc) : option Z :=
  match e with
  | MMap name => ρ name
  | MInt n => Some n
  | MAdd a b => x ← eval ρ a; y ← eval ρ b; Some (x + y)
  | MSub a b => x ← eval ρ a; y ← eval ρ b; Some (x - y)
  | MAbs a => x ← eval ρ a; Some (Z.abs x)
  | MIfLess x bound a b =>
      v ← eval ρ x; if less_than v bound then eval ρ a else eval ρ b
  end.

(** ** Python's [csv] module, default dialect

    Comma as delimiter, the double quote as quote character (doubled inside
    a quoted field), no escape character, minimal quoting, not strict: the
    reader and writer as the script creates them, the writer with a line
    feed as line terminator. *)

Module Csv.

Definition delimiter : ascii := ","%char.
Definition quotechar : ascii := "034"%char.
Definition cr : ascii := "013"%char.

Inductive state :=
  | START_RECORD | START_FIELD | IN_FIELD
  | IN_QUOTED_FIELD | QUOTE_IN_QUOTED_FIELD | EAT_CRNL.

#[global] Instance state_eq_dec : EqDecision state.
Proof. solve_decision. Defined.

Record parser := Parser { st : state; field : string; fields : list string }.

Definition parse_reset : parser := Parser START_RECORD "" [].

Definition parse_save_field (p : parser) (next : state) : parser :=
  Parser next "" (fields p ++ [field p]).

Definition parse_add_char (p : parser) (ch : ascii) (next : state) : parser :=
  Parser next (field p +:+ String ch "") (fields p).

Definition is_newline (ch : ascii) : bool :=
  Ascii.eqb ch Py.newline || Ascii.eqb ch cr.

(** One step of the reader; [None] as input is the end of a line, [None] as
    result is [csv.Error]. *)
Definition parse_process_char (p : parser) (c : option ascii) : option parser :=
  let start_field :=
    match c with
    | None => Some (parse_save_field p START_RECORD)
    | Some ch =>
        if is_newline ch then Some (parse_save_field p EAT_CRNL)
        else if Ascii.eqb ch quotechar then Some (Parser IN_QUOTED_FIELD (field p) (fields p))
        else if Ascii.eqb ch delimiter then Some (parse_save_field p START_FIELD)
        else Some (parse_add_char p ch IN_FIELD)
    end in
  match st p with
  | START_RECORD =>
      match c with
      | None => Some p
      | Some ch => if is_newline ch then Some (Parser EAT_CRNL (field p) (fields p))
                   else start_field
      end
  | START_FIELD => start_field
  | IN_FIELD =>
      match c with
      | None => Some (parse_save_field p START_RECORD)
      | Some ch =>
          if is_newline ch then Some (parse_save_field p EAT_CRNL)
          else if Ascii.eqb ch delimiter then Some (parse_save_field p START_FIELD)
          else Some (parse_add_char p ch IN_FIELD)
      end
  | IN_QUOTED_FIELD =>
      match c with
      | None => Some p
      | Some ch =>
          if Ascii.eqb ch quotechar then Some (Parser QUOTE_IN_QUOTED_FIELD (field p) (fields p))
          else Some (parse_add_char p ch IN_QUOTED_FIELD)
      end
  | QUOTE_IN_QUOTED_FIELD =>
      match c with
      | None => Some (parse_save_field p START_RECORD)
      | Some ch =>
          if Ascii.eqb ch quotechar then Some (parse_add_char p ch IN_QUOTED_FIELD)
          else if Ascii.eqb ch delimiter then Some (parse_save_field p START_FIELD)
          else if is_newline ch then Some (parse_save_field p EAT_CRNL)
          else Some (parse_add_char p ch IN_FIELD)
      end
  | EAT_CRNL =>
      match c with
      | None => Some (Parser START_RECORD (field p) (fields p))
      | Some ch => if is_newline ch then Some p else None
      end
  end.

Fixpoint parse_line (p : parser) (line : string) : option parser :=
  match line with
  | EmptyString => parse_process_char p None
  | String ch line' => p' ← parse_process_char p (Some ch); parse_line p' line'
  end.

(** [list(csv.reader(lines))]: a record ends with the line after which the
    reader is back in [START_RECORD]; input that ends inside a record still
    yields it. *)
Fixpoint reader_from (p : parser) (lines : list string) : option (list (list string)) :=
  match lines with
  | [] =>
      if negb (String.eqb (field p) "") || bool_decide (st p = IN_QUOTED_FIELD)
      then Some [fields p ++ [field p]] else Some []
  | line :: rest =>
      p' ← parse_line p line;
      if decide (st p' = START_RECORD)
      then (fields p' ::.) <$> reader_from parse_reset rest
      else reader_from p' rest
  end.

Definition reader (lines : list string) : option (list (list string)) :=
  reader_from parse_reset lines.

(** The writer quotes a field that holds the delimiter, the quote character
    or a character of the line terminator, doubling the quotes in it. *)
Definition special (ch : ascii) : bool :=
  Ascii.eqb ch delimiter || Ascii.eqb ch quotechar || Ascii.eqb ch Py.newline.

Fixpoint quoted (s : string) : bool :=
  match s with
  | EmptyString => false
  | String ch s' => special ch || quoted s'
  end.

Fixpoint double_quotes (s : string) : string :=
  match s with
  | EmptyString => ""
  | String ch s' =>
      if Ascii.eqb ch quotechar then String ch (String ch (double_quotes s'))
      else String ch (double_quotes s')
  end.

Definition join_append (s : string) : string :=
  if quoted s then String quotechar (double_quotes s +:+ String quotechar "") else s.

(** [writer.writerow(row)]; a row that is one empty field is written as
    two quote characters. *)
Definition writerow (row : list string) : string :=
  match row with
  | [EmptyString] => String quotechar (String quotechar Py.nl)
  | _ => Py.join "," (join_append <$> row) +:+ Py.nl
  end.

End Csv.

(** Iterating over a text file yields its lines with their line feeds; the
    last line may lack one.  (A file opened in text mode has every line
    ending turned into a line feed.) *)
Fixpoint lines_from (cur : string) (text : string) : list string :=
  match text with
  | EmptyString => if String.eqb cur "" then [] else [cur]
  | String ch text' =>
      if Ascii.eqb ch Py.newline then (cur +:+ Py.nl) :: lines_from "" text'
      else lines_from (cur +:+ String ch "") text'
  end.

Definition file_lines (text : string) : list string := lines_from "" text.

(** ** The script *)

(** [options] and [flags] as [grass.parser()] returns them: every option is
    a string, empty when it was not given. *)
Record Options := {
  opt_input : string;
  opt_output : string;
  opt_window_size : string;
  opt_csv_path : string;
  opt_ignore_value : string;
}.

Record Flags := { flag_f : bool; flag_c : bool; flag_l : bool }.

(** What the world outside the script answers in one run.  The fields that
    hold the answer to [grass.parse_command] (the keys of the parsed
    output, in the order printed) carry the name of the variable the
    script stores them in. *)
Record Engine := {
  pid : string;                       (* str(os.getpid()) *)
  cats_in1_tmp : list string;         (* r.category map=input[0] separator=tab *)
  cats_in2_tmp : list string;         (* r.category map=input[1] separator=tab *)
  cats_cd_tmp : list string;          (* r.category map=out_tmpname2 separator=tab *)
  old_vals_labels : list string;      (* r.category map=out_tmpname2 separator=: *)
  colors_tmp : list string;           (* r.colors.out map=output *)
  outstr : string;                    (* what r.stats prints or writes *)
  csv_before : option string;         (* the file at csv_path before the run *)
  set_order : list (string * string) → list (string * string);
                                      (* iteration order of a set in this process *)
}.

(** [set_order] is an admissible iteration order: each element once. *)
Definition set_order_ok (order : list (string * string) → list (string * string)) : Prop :=
  ∀ l, order l ≡ₚ remove_dups l.

(** The rules of the interface: [window_size] requires [-f], [csv_path]
    requires [-c]. *)
Definition rules_ok (options : Options) (flags : Flags) : bool :=
  (negb (Py.truthy (opt_window_size options)) || flag_f flags)
  && (negb (Py.truthy (opt_csv_path options)) || flag_c flags).

Definition reclass_string (values_in values_out : list string) : run string :=
  for_each (λ reclass_string '(idx, item),
              out ← or_raise Py.IndexError (values_out !! idx);
              mret (reclass_string +:+ item +:+ " = " +:+ out +:+ Py.nl))
           (imap pair values_in) "".

Definition reclassify (map_in map_out : string) (values_in values_out : list string)
  : run () :=
  rules ← reclass_string values_in values_out;
  emit (FeedCommand "r.reclass"
          [("input", map_in); ("output", map_out); ("rules", "-")] rules).

(** The merged universe and its ranks (lines 196-202). *)
Definition all_cats_of (cats_in1 cats_in2 : list string) : list string :=
  sort_strings (Py.distinct (cats_in1 ++ cats_in2)).

Definition new_cats_of (all_cats : list string) : list Z :=
  Z.of_nat <$> seq 1 (length all_cats).

Definition new_cats_t1000_of (new_cats : list Z) : list string :=
  (λ item, Py.str (1000 * item)) <$> new_cats.

(** The change expression handed to [r.mapcalc] (lines 221-226). *)
Definition change_expression (input0 input1 map1_recl map2_recl : string) : mapcalc :=
  MIfLess (MAbs (MSub (MMap input0) (MMap input1))) GRASS_EPSILON
          (MInt 0) (MAdd (MMap map1_recl) (MMap map2_recl)).

(** Reading the labels (lines 162-194); the result is the new value of
    [labels], [labellist] and [ignore_label]. *)
Definition second_field (sep : ascii) (s : string) : run string :=
  or_raise Py.IndexError (Py.split sep s !! 1%nat).

Definition ambiguous_warning : string :=
  "Input raster labels are ambiguous," +:+ "using raster categories for result raster labels".

Definition unlabelled_warning : string :=
  "Input rasters are not (entirely) labelled," +:+ " using raster categories for result raster labels".

Definition read_labels (engine : Engine) (ignore : option string)
    (cats_in1 cats_in2 : list string)
  : run (bool * list (string * string) * option string) :=
  try_except
    (labels_in1 ← mapM (second_field Py.tab) (cats_in1_tmp engine);
     labels_in2 ← mapM (second_field Py.tab) (cats_in2_tmp engine);
     let labellist1 := zip cats_in1 labels_in1 in
     let labellist2 := zip cats_in2 labels_in2 in
     let labellist := set_order engine (labellist1 ++ labellist2) in
     if negb (Py.len_set (labellist.*2) =? Py.len_set (labellist.*1))%nat
     then emit (Warning ambiguous_warning);; mret (false, labellist, None)
     else match ignore with
          | Some str_val =>
              ignore_label ← or_raise Py.IndexError
                (head ((filter (λ item, item.1 = str_val) labellist).*2));
              mret (true, labellist, Some ignore_label)
          | None => mret (true, labellist, None)
          end)
    (emit (Warning unlabelled_warning);; mret (false, [], None)).

(** Decoding a transition code (lines 254-266).  The script divides with
    [/] and truncates with [int]; the dividend is a multiple of 1000, so
    the quotient is exact. *)
Definition changed_from_reclass (code : Z) : Z := code `mod` 1000.

Definition changed_to_reclass (code : Z) : Z :=
  (code - changed_from_reclass code) `quot` 1000.

(** [all_cats[[item for item in new_cats].index(rank)]]. *)
Definition category_of_rank (all_cats : list string) (new_cats : list Z) (rank : Z)
  : run string :=
  idx ← or_raise Py.ValueError (Py.index rank new_cats);
  or_raise Py.IndexError (all_cats !! idx).

Definition decode (all_cats : list string) (new_cats : list Z) (item : string)
  : run (string * string) :=
  code ← or_raise Py.ValueError (Py.int item);
  changed_from ← category_of_rank all_cats new_cats (changed_from_reclass code);
  changed_to ← category_of_rank all_cats new_cats (changed_to_reclass code);
  mret (changed_from, changed_to).

(** Is the code a change from or to the ignored rank (lines 256-260)? *)
Definition to_ignore (new_ignore_val : option Z) (item : string) : bool :=
  match new_ignore_val, Py.int item with
  | Some ignore, Some code =>
      bool_decide (changed_from_reclass code = ignore)
      || bool_decide (changed_to_reclass code = ignore)
  | _, _ => false
  end.

(** [labellist_classtext[labellist_classnum.index(cat)]]. *)
Definition label_of (labellist : list (string * string)) (cat : string) : run string :=
  idx ← or_raise Py.ValueError (Py.index cat (labellist.*1));
  or_raise Py.IndexError (labellist.*2 !! idx).

(** The body of the loop over the codes present (lines 252-280); the
    accumulator is [(cd_labels, cats_to_ignore)]. *)
Definition label_code (all_cats : list string) (new_cats : list Z)
    (new_ignore_val : option Z) (labels : bool) (labellist : list (string * string))
    (acc : list string * list string) (item : string)
  : run (list string * list string) :=
  let '(cd_labels, cats_to_ignore) := acc in
  if decide (item ≠ "0") then
    _ ← or_raise Py.ValueError (Py.int item);
    let cats_to_ignore :=
      if to_ignore new_ignore_val item then cats_to_ignore ++ [item]
      else cats_to_ignore in
    '(changed_from, changed_to) ← decode all_cats new_cats item;
    '(changed_from, changed_to) ←
      (if labels then
         changed_from_label ← label_of labellist changed_from;
         changed_to_label ← label_of labellist changed_to;
         mret (changed_from_label, changed_to_label)
       else mret (changed_from, changed_to));
    mret (cd_labels ++ [item +:+ ":Change from " +:+ changed_from
                        +:+ " to " +:+ changed_to],
          cats_to_ignore)
  else mret acc.

(** The dense remapper (lines 292-315): the old values, the rule each one
    is reclassified by, and the category of the ignored areas if any.
    [ignore] is [Some (cats_to_ignore, ignore_label)] when an ignore value
    was given and exists. *)
Definition ignored_rule (ignore_out_cat : Z) (ignore_label : option string) : string :=
  let rule := Py.str ignore_out_cat +:+ " areas ignored" in
  match ignore_label with
  | Some label => if Py.truthy label then rule +:+ " (" +:+ label +:+ ")" else rule
  | None => rule
  end.

Definition dense_remap (old_vals_labels : list string)
    (ignore : option (list string * option string))
  : run (list string * list string * option Z) :=
  let old_vals := (λ s, hd "" (Py.split ":" s)) <$> old_vals_labels in
  old_labels ← mapM (second_field ":") old_vals_labels;
  let out_vals := Z.of_nat <$> seq 0 (length old_vals_labels) in
  let out_vals_labels :=
    zip_with (λ out_val label, Py.str out_val +:+ "  " +:+ label) out_vals old_labels in
  match ignore with
  | Some (cats_to_ignore, ignore_label) =>
      old_vals_ignore_idcs ←
        mapM (λ cat, or_raise Py.ValueError (Py.index cat old_vals)) cats_to_ignore;
      max_out_val ← or_raise Py.ValueError (last out_vals);
      let ignore_out_cat := max_out_val + 10 in
      mret (old_vals,
            foldl (λ out_vals_labels index,
                     <[index := ignored_rule ignore_out_cat ignore_label]> out_vals_labels)
                  out_vals_labels old_vals_ignore_idcs,
            Some ignore_out_cat)
  | None => mret (old_vals, out_vals_labels, None)
  end.

(** The colour rules (lines 324-333): grey for no change, near white for
    the ignored areas. *)
Definition colors_new_of (colors_tmp : list string) (ignore_out_cat : option Z)
  : list string :=
  "0 200:200:200" ::
  ((λ color_rule,
      match ignore_out_cat with
      | Some cat =>
          if decide (hd "" (Py.split " " color_rule) = Py.str cat)
          then Py.str cat +:+ " 250:250:250" else color_rule
      | None => color_rule
      end) <$> colors_tmp).

Definition headerline : list string := ["raster value|label|percentage of covered area"].

(** Adding the header line to the statistics file (lines 352-362). *)
Definition add_header (csvfile : string) (content : option string) : run () :=
  text ← or_raise Py.OSError content;
  reader ← or_raise Py.CsvError (Csv.reader (file_lines text));
  let reader := headerline :: reader in
  emit (WriteFile csvfile (String.concat "" (Csv.writerow <$> reader)));;
  emit (Message ("Change statistics written to file <" +:+ csvfile +:+ ">")).

(** The category values of a listing: [[cat.split("\t")[0] for cat in cats]]. *)
Definition cats_of (cats_tmp : list string) : list string :=
  (λ cat, hd "" (Py.split Py.tab cat)) <$> cats_tmp.

Definition main (options : Options) (flags : Flags) (engine : Engine) : run () :=
  (* parameters *)
  let input := Py.split "," (opt_input options) in
  match input with
  | [input0; input1] =>
  let output := opt_output options in
  let labels := flag_l flags in
  let str_val := opt_ignore_value options in
  (* get the category values and labels of the input maps *)
  let cats_in1 := cats_of (cats_in1_tmp engine) in
  let cats_in2 := cats_of (cats_in2_tmp engine) in
  let ignore_val_exists :=
    Py.truthy (opt_ignore_value options)
    && (Py.contains str_val cats_in1 || Py.contains str_val cats_in2) in
  (if Py.truthy (opt_ignore_value options) && negb ignore_val_exists
   then emit (Warning ("Value to ignore (" +:+ str_val +:+ ") does not exist in input maps"))
   else mret ());;
  let ignore := if ignore_val_exists then Some str_val else None in
  '(labels, labellist, ignore_label) ←
    (if labels then read_labels engine ignore cats_in1 cats_in2
     else mret (false, [], None));
  (* get unique category values only *)
  let all_cats := all_cats_of cats_in1 cats_in2 in
  (* assign new category values *)
  let new_cats := new_cats_of all_cats in
  let new_cats_t1000 := new_cats_t1000_of new_cats in
  (* get new value to ignore *)
  new_ignore_val ←
    (if ignore_val_exists then
       ignore_idx ← or_raise Py.ValueError (Py.index str_val all_cats);
       Some <$> or_raise Py.IndexError (new_cats !! ignore_idx)
     else mret None);
  (* reclassify *)
  let map1_recl := "map1_out_" +:+ pid engine in
  let map2_recl := "map2_out_" +:+ pid engine in
  reclassify input0 map1_recl all_cats (Py.str <$> new_cats);;
  reclassify input1 map2_recl all_cats new_cats_t1000;;
  (* calculate change detection map *)
  let out_tmpname := output +:+ "_" +:+ pid engine in
  emit (RunCommand "r.mapcalc"
          [("expression",
            out_tmpname +:+ " = "
            +:+ render (change_expression input0 input1 map1_recl map2_recl))]);;
  (* filter *)
  let out_tmpname2 := output +:+ "_temp2_" +:+ pid engine in
  (if flag_f flags then
     window_size ← or_raise Py.ValueError (Py.int (opt_window_size options));
     emit (RunCommand "r.neighbors"
             [("input", out_tmpname); ("output", out_tmpname2);
              ("size", Py.str window_size); ("method", "mode")])
   else
     emit (RunCommand "g.rename" [("raster", out_tmpname +:+ "," +:+ out_tmpname2)]));;
  (* put together rule string to label change detection map *)
  '(cd_labels, cats_to_ignore) ←
    for_each (label_code all_cats new_cats new_ignore_val labels labellist)
             (cats_cd_tmp engine) (["0:No Change"], []);
  let category_text := Py.join Py.nl cd_labels in
  (* assign labels *)
  emit (FeedCommand "r.category"
          [("map", out_tmpname2); ("rules", "-"); ("separator", ":")] category_text);;
  (* get old values to be reclassified to small pixel values *)
  '(old_vals, out_vals_labels, ignore_out_cat) ←
    dense_remap (old_vals_labels engine)
                (if ignore_val_exists then Some (cats_to_ignore, ignore_label) else None);
  (* create reclassified map *)
  let reclassmap := "tmp_reclass_" +:+ pid engine in
  reclassify out_tmpname2 reclassmap old_vals out_vals_labels;;
  (* make reclassified map persistent *)
  emit (RunCommand "r.mapcalc" [("expression", output +:+ " = " +:+ reclassmap)]);;
  (* assign random colors to output map *)
  emit (RunCommand "r.colors" [("map", output); ("color", "random")]);;
  (* visualise no change in grey, ignored areas in white *)
  let color_str := Py.join Py.nl (colors_new_of (colors_tmp engine) ignore_out_cat) in
  emit (FeedCommand "r.colors" [("map", output); ("rules", "-")] color_str);;
  (* calculate statistics and export .csv *)
  let to_file :=
    Py.truthy (opt_csv_path options) && negb (String.eqb (opt_csv_path options) "-") in
  (if flag_c flags then
     if to_file then
       emit (RunCommand "r.stats"
               [("input", output); ("separator", "pipe"); ("flags", "lp");
                ("output", opt_csv_path options)])
     else
       (* print header to stdout too *)
       emit (Print (hd "" headerline +:+ Py.nl +:+ outstr engine))
   else mret ());;
  emit (Message ("Generated output map <" +:+ output +:+ ">"));;
  if to_file then
    (* add header line *)
    add_header (opt_csv_path options)
               (if flag_c flags then Some (outstr engine) else csv_before engine)
  else mret ()
  | _ => fatal "Input must consist of two raster maps"
  end.

(** The script as it is started: [grass.parser()] rejects a call that breaks
    the rules of the interface, then [main] runs. *)
Definition script (options : Options) (flags : Flags) (engine : Engine) : run () :=
  if rules_ok options flags then main options flags engine
  else fatal "option requirements not met".

(** * The vocabulary of the properties, and example runs *)

(** Does the character occur in the string? *)
Fixpoint occurs (ch : ascii) (s : string) : bool :=
  match s with
  | EmptyString => false
  | String c s' => Ascii.eqb c ch || occurs ch s'
  end.

(** One cell of two layers and of their reclassifications: category 1 in
    the first layer, category 3 in the second, ranks 1 and 3 in the universe
    of the categories 1, 2 and 3. *)
Definition example_cell (name : string) : option Z :=
  if decide (name = "lu96") then Some 1
  else if decide (name = "lu06") then Some 3
  else if decide (name = "map1_out_7") then Some 1
  else if decide (name = "map2_out_7") then Some 3000
  else None.

(** The same category in both layers, and no reclassified value at all. *)
Definition unchanged_cell (name : string) : option Z :=
  if decide (name = "lu96") then Some 5
  else if decide (name = "lu06") then Some 5
  else None.

(** The codes that are folded into the ignored class. *)
Definition ignored_codes (ignore : option (list string * option string)) : list string :=
  match ignore with Some (cats_to_ignore, _) => cats_to_ignore | None => [] end.

(** The ordinals of the codes that are not ignored, in the order of the
    list, as the final reclassification assigns them. *)
Definition kept_ordinals (old_vals rules cats_to_ignore : list string) : list (option Z) :=
  (λ old_val, code ← Py.int old_val; r_reclass old_vals rules code)
    <$> filter (λ old_val, old_val ∉ cats_to_ignore) old_vals.

(** The ordinals are 0, 1, 2, ... without a gap. *)
Definition gap_free (ordinals : list (option Z)) : Prop :=
  ordinals = (λ i, Some (Z.of_nat i)) <$> seq 0 (length ordinals).

(** Categories 1, 2 and 3 in both layers, 2 to be ignored; the change
    raster holds the codes 0, 1002 (from 2 to 1) and 3001 (from 1 to 3). *)
Definition gap_options : Options :=
  {| opt_input := "lu96,lu06"; opt_output := "change"; opt_window_size := "";
     opt_csv_path := ""; opt_ignore_value := "2" |}.

Definition gap_flags : Flags := {| flag_f := false; flag_c := false; flag_l := false |}.

Definition gap_engine : Engine :=
  {| pid := "7";
     cats_in1_tmp := ["1"; "2"; "3"];
     cats_in2_tmp := ["1"; "2"; "3"];
     cats_cd_tmp := ["0"; "1002"; "3001"];
     old_vals_labels := ["0:No Change"; "1002:Change from 2 to 1";
                         "3001:Change from 1 to 3"];
     colors_tmp := ["2 12:34:56"; "12 65:43:21"];
     outstr := "";
     csv_before := None;
     set_order := remove_dups |}.

(** The same call without the [ignore_value] option. *)
Definition without_ignore_value (options : Options) : Options :=
  {| opt_input := opt_input options; opt_output := opt_output options;
     opt_window_size := opt_window_size options; opt_csv_path := opt_csv_path options;
     opt_ignore_value := "" |}.

(** The call of [gap_options] with a value to ignore that no layer has. *)
Definition absent_options : Options :=
  {| opt_input := "lu96,lu06"; opt_output := "change"; opt_window_size := "";
     opt_csv_path := ""; opt_ignore_value := "9" |}.

(** One line [old = new] per pair of values. *)
Fixpoint rules_text (values_in values_out : list string) : string :=
  match values_in, values_out with
  | item :: values_in', out :: values_out' =>
      item +:+ " = " +:+ out +:+ Py.nl +:+ rules_text values_in' values_out'
  | _, _ => ""
  end.

(** The run does not end in [grass.fatal]. *)
Definition no_fatal {A} (r : run A) : Prop := ∀ msg, result r ≠ Fatal msg.

(** The run writes nothing but warnings. *)
Definition only_warnings (t : list event) : Prop :=
  Forall (λ e, ∃ msg, e = Warning msg) t.

(** C1 as the specification puts it: a universe of 1000 categories or more
    ends the run in a fatal error before anything is written. *)
Definition collision_guard (options : Options) (flags : Flags) (engine : Engine) : Prop :=
  (1000 ≤ length (all_cats_of (cats_of (cats_in1_tmp engine))
                              (cats_of (cats_in2_tmp engine))))%nat →
  (∃ msg, result (main options flags engine) = Fatal msg)
  ∧ only_warnings (trace (main options flags engine)).

(** A first layer with the categories 1 to 1000 and a second layer that
    holds category 1 where the first one does. *)
Definition crowded_engine : Engine :=
  {| pid := "7";
     cats_in1_tmp := (λ i, Py.str (Z.of_nat i)) <$> seq 1 1000;
     cats_in2_tmp := ["1"];
     cats_cd_tmp := ["0"];
     old_vals_labels := ["0:No Change"];
     colors_tmp := [];
     outstr := "";
     csv_before := None;
     set_order := remove_dups |}.

Definition crowded_options : Options :=
  {| opt_input := "lu96,lu06"; opt_output := "change"; opt_window_size := "";
     opt_csv_path := ""; opt_ignore_value := "" |}.

(** A line of [r.category]: the category, a tab, the label. *)
Definition cat_line (cat label : string) : string := cat +:+ String Py.tab label.

(** The first layer labels category 1 as [a]; the second labels category 1
    as [b] and category 2 as [a].  The two engines differ in the order in
    which a set is iterated (and in the labels the change raster then
    carries) and in nothing else. *)
Definition swapped_options : Options :=
  {| opt_input := "lu96,lu06"; opt_output := "change"; opt_window_size := "";
     opt_csv_path := ""; opt_ignore_value := "" |}.

Definition swapped_flags : Flags := {| flag_f := false; flag_c := false; flag_l := true |}.

Definition swapped_engine : Engine :=
  {| pid := "7";
     cats_in1_tmp := [cat_line "1" "a"];
     cats_in2_tmp := [cat_line "1" "b"; cat_line "2" "a"];
     cats_cd_tmp := ["0"; "2001"];
     old_vals_labels := ["0:No Change"; "2001:Change from a to a"];
     colors_tmp := ["1 12:34:56"];
     outstr := "";
     csv_before := None;
     set_order := remove_dups |}.

Definition swapped_engine_rev : Engine :=
  {| pid := "7";
     cats_in1_tmp := [cat_line "1" "a"];
     cats_in2_tmp := [cat_line "1" "b"; cat_line "2" "a"];
     cats_cd_tmp := ["0"; "2001"];
     old_vals_labels := ["0:No Change"; "2001:Change from b to a"];
     colors_tmp := ["1 12:34:56"];
     outstr := "";
     csv_before := None;
     set_order := λ l, reverse (remove_dups l) |}.

(** The pairing of categories and labels is one to one. *)
Definition one_to_one (labellist : list (string * string)) : Prop :=
  ∀ cat1 label1 cat2 label2,
    (cat1, label1) ∈ labellist → (cat2, label2) ∈ labellist →
    (cat1 = cat2 ↔ label1 = label2).

(** The legend the script attaches to the change raster: the rules it feeds
    to [r.category]. *)
Definition legend (r : run ()) : list string :=
  omap (λ e, match e with
             | FeedCommand "r.category" _ category_text => Some category_text
             | _ => None
             end) (trace r).

(** A line without double quote, line feed or carriage return. *)
Definition plain (s : string) : Prop :=
  occurs Csv.quotechar s = false ∧ occurs Py.newline s = false
  ∧ occurs Csv.cr s = false.

(** The text of a file with the given lines. *)
Definition text_of (rows : list string) : string :=
  String.concat "" ((λ row, row +:+ Py.nl) <$> rows).



(** A run that ends normally ends with the events [suffix]. *)
Definition ends_with (suffix : list event) (r : run ()) : Prop :=
  result r = Done () → ∃ before, trace r = before ++ suffix.

(** A row of the statistics as [r.stats] writes it with the separator
    [pipe] and the flags [lp]: category, label and share of the area. *)
Definition stats_row (ordinal : Z) (label percent : string) : string :=
  Py.str ordinal +:+ "|" +:+ label +:+ "|" +:+ percent.

Definition stats_options : Options :=
  {| opt_input := "lu96,lu06"; opt_output := "change"; opt_window_size := "";
     opt_csv_path := "stats.csv"; opt_ignore_value := "" |}.

Definition stats_flags : Flags := {| flag_f := false; flag_c := true; flag_l := true |}.

(** Two categories labelled [wood] and [field]; half of the area changes
    from the first to the second. *)
Definition stats_rows : list string :=
  [stats_row 0 "No Change" "50.00%";
   stats_row 1 "Change from wood to field" "50.00%"].

Definition stats_engine : Engine :=
  {| pid := "7";
     cats_in1_tmp := [cat_line "1" "wood"; cat_line "2" "field"];
     cats_in2_tmp := [cat_line "1" "wood"; cat_line "2" "field"];
     cats_cd_tmp := ["0"; "2001"];
     old_vals_labels := ["0:No Change"; "2001:Change from wood to field"];
     colors_tmp := ["1 12:34:56"];
     outstr := text_of stats_rows;
     csv_before := None;
     set_order := remove_dups |}.





(** The rasters around one cell as [main] wires them up: the two input
    layers hold the categories [a] and [b], the two reclassified layers
    what [r.reclass] makes of them with the tables of the universe. *)
Definition cell_rasters (all_cats : list string) (a b : Z) (name : string) : option Z :=
  if decide (name = "input0") then Some a
  else if decide (name = "input1") then Some b
  else if decide (name = "map1_recl")
       then r_reclass all_cats (Py.str <$> new_cats_of all_cats) a
  else if decide (name = "map2_recl")
       then r_reclass all_cats (new_cats_t1000_of (new_cats_of all_cats)) b
  else None.

(** The transition code the encoder writes into that cell. *)
Definition encoded (all_cats : list string) (a b : Z) : option Z :=
  eval (cell_rasters all_cats a b)
       (change_expression "input0" "input1" "map1_recl" "map2_recl").

(** A universe of the categories 1 to 1001, in the order of their ranks
    (the code-point order of their decimal strings). *)
Definition thousand_and_one : list string :=
  sort_strings ((λ i, Py.str (Z.of_nat i)) <$> seq 1 1001).

(** The items of the listing that are changes: all but the code 0. *)
Definition changes (items : list string) : list string :=
  filter (λ item, item ≠ "0") items.

(** The code of a change and its line in the legend when categories are
    used as labels. *)
Definition code_of (ranks : Z * Z) : Z := ranks.1 + 1000 * ranks.2.

Definition legend_line (all_cats : list string) (ranks : Z * Z) (line : string) : Prop :=
  ∃ changed_from changed_to,
    all_cats !! Z.to_nat (ranks.1 - 1) = Some changed_from
    ∧ all_cats !! Z.to_nat (ranks.2 - 1) = Some changed_to
    ∧ line = Py.str (code_of ranks) +:+ ":Change from " +:+ changed_from
             +:+ " to " +:+ changed_to.

Definition valid_ranks (all_cats : list string) (ranks : Z * Z) : Prop :=
  1 ≤ ranks.1 ≤ Z.of_nat (length all_cats) ∧ 1 ≤ ranks.2 ≤ Z.of_nat (length all_cats).

(** The line of [r.category] has a label: a second field after a tab. *)
Definition has_label (line : string) : Prop := is_Some (Py.split Py.tab line !! 1%nat).

(** The labels of a listing, and its pairs of category and label. *)
Definition labels_of (cats_tmp : list string) : list string :=
  (λ line, default "" (Py.split Py.tab line !! 1%nat)) <$> cats_tmp.

Definition pairs_of (cats_tmp : list string) : list (string * string) :=
  zip (cats_of cats_tmp) (labels_of cats_tmp).

(** Every category has one label. *)
Definition one_label_each (labellist : list (string * string)) : Prop :=
  ∀ cat label1 label2,
    (cat, label1) ∈ labellist → (cat, label2) ∈ labellist → label1 = label2.

(** The same engine in a process that iterates sets in another order. *)
Definition with_set_order (engine : Engine)
    (order : list (string * string) → list (string * string)) : Engine :=
  {| pid := pid engine;
     cats_in1_tmp := cats_in1_tmp engine;
     cats_in2_tmp := cats_in2_tmp engine;
     cats_cd_tmp := cats_cd_tmp engine;
     old_vals_labels := old_vals_labels engine;
     colors_tmp := colors_tmp engine;
     outstr := outstr engine;
     csv_before := csv_before engine;
     set_order := order |}.


(** The event is not the writing of a file. *)
Definition not_a_file (e : event) : Prop :=
  match e with WriteFile _ _ => False | _ => True end.

(** The run writes no file. *)
Definition writes_no_file {A} (r : run A) : Prop := Forall not_a_file (trace r).

(** The call of [gap_options] with statistics on standard output. *)
Definition stdout_flags : Flags := {| flag_f := false; flag_c := true; flag_l := false |}.


(** An item of the listing of the change raster that the encoder can have
    written: code 0 or the code of two ranks of the universe. *)
Definition listed_code (all_cats : list string) (item : string) : Prop :=
  item = "0" ∨ ∃ ranks, valid_ranks all_cats ranks ∧ item = Py.str (code_of ranks).

(** The line of the listing has a colon after the category. *)
Definition has_colon (line : string) : Prop := is_Some (Py.split ":" line !! 1%nat).

(** * Properties *)

(** ** Runs *)

Lemma run_eta {A} (r : run A) : Run (trace r) (result r) = r.
Proof. by destruct r. Qed.

Lemma bind_ret {A B} (a : A) (k : A → run B) : (mret a ≫= k) = k a.
Proof. unfold mbind, run_bind, mret, run_ret. simpl. apply run_eta. Qed.

Lemma bind_done {A B} (t : list event) (a : A) (k : A → run B) :
  (Run t (Done a) ≫= k) = Run (t ++ trace (k a)) (result (k a)).
Proof. done. Qed.

Lemma bind_raised {A B} (t : list event) (e : Py.exn) (k : A → run B) :
  (Run t (Raised e) ≫= k) = Run t (Raised e).
Proof. done. Qed.

Lemma bind_fatal {A B} (t : list event) (msg : string) (k : A → run B) :
  (Run t (Fatal msg) ≫= k) = Run t (Fatal msg).
Proof. done. Qed.

Lemma or_raise_Some {A} (e : Py.exn) (a : A) : or_raise e (Some a) = mret a.
Proof. done. Qed.

Lemma fmap_ret {A B} (f : A → B) (a : A) : f <$> (mret a : run A) = mret (f a).
Proof. done. Qed.

(** ** Decimal literals *)

Lemma int_str (n : Z) : Py.int (Py.str n) = Some n.
Proof.
  unfold Py.int, Py.str.
  destruct (Z.eq_dec n 0) as [->|Hn]; [reflexivity|].
  rewrite NilZero.isi.
  - simpl. f_equal. apply DecimalZ.of_to.
  - intros H. apply Hn. rewrite <- (DecimalZ.of_to n), H. reflexivity.
  - intros H. apply Hn. rewrite <- (DecimalZ.of_to n), H. reflexivity.
Qed.

Lemma str_inj (m n : Z) : Py.str m = Py.str n → m = n.
Proof.
  intros H. apply (f_equal Py.int) in H. rewrite !int_str in H. congruence.
Qed.

Lemma append_assoc (s t u : string) : (s +:+ t) +:+ u = s +:+ (t +:+ u).
Proof.
  induction s as [|c s IH]; [done|].
  change (String c ((s +:+ t) +:+ u) = String c (s +:+ (t +:+ u))). by rewrite IH.
Qed.

Lemma occurs_app ch s t : occurs ch (s +:+ t) = occurs ch s || occurs ch t.
Proof. induction s as [|c s IH]; simpl; [done|]. rewrite IH. apply orb_assoc. Qed.

Lemma uint_no_blank (d : Decimal.uint) :
  occurs " " (NilEmpty.string_of_uint d) = false.
Proof. induction d; simpl; auto. Qed.

Lemma str_no_blank (n : Z) : occurs " " (Py.str n) = false.
Proof.
  unfold Py.str. destruct (Z.to_int n) as [d|d]; simpl.
  - destruct d; simpl; auto using uint_no_blank.
  - destruct d; simpl; auto using uint_no_blank.
Qed.

Lemma split_absent sep s : occurs sep s = false → Py.split sep s = [s].
Proof.
  induction s as [|c s IH]; simpl; [done|].
  intros [Hc Hs]%orb_false_elim. rewrite Hc, (IH Hs). done.
Qed.

Lemma split_first sep s t :
  occurs sep s = false → hd "" (Py.split sep (s +:+ String sep t)) = s.
Proof.
  induction s as [|c s IH]; simpl.
  - intros _. rewrite Ascii.eqb_refl. done.
  - intros [Hc Hs]%orb_false_elim. rewrite Hc. specialize (IH Hs).
    destruct (Py.split sep (s +:+ String sep t)); simpl in *; congruence.
Qed.

Lemma first_word_str (n : Z) : first_word (Py.str n) = Py.str n.
Proof. unfold first_word. rewrite split_absent; auto using str_no_blank. Qed.

Lemma first_word_str_blank (n : Z) (rest : string) :
  first_word (Py.str n +:+ String " " rest) = Py.str n.
Proof. apply split_first, str_no_blank. Qed.

(** ** [index] and the rank table *)

Section Index.
Context `{EqDecision A}.
Implicit Types (x : A) (l : list A).

Lemma index_Some x l i : Py.index x l = Some i → l !! i = Some x.
Proof.
  revert i. induction l as [|y l IH]; intros i; simpl; [done|].
  destruct (decide (x = y)) as [->|].
  - intros [= <-]. done.
  - destruct (Py.index x l) as [j|] eqn:E; simpl; [|done].
    intros [= <-]. simpl. auto.
Qed.

Lemma index_elem x l : x ∈ l → is_Some (Py.index x l).
Proof.
  induction 1 as [|x y l Hin IH]; simpl.
  - rewrite decide_True by done. eauto.
  - destruct (decide (x = y)); [eauto|]. destruct IH as [j ->]. eauto.
Qed.

Lemma index_None x l : Py.index x l = None → x ∉ l.
Proof.
  intros H Hin. apply index_elem in Hin. rewrite H in Hin. by destruct Hin.
Qed.

Lemma index_NoDup x l i : NoDup l → l !! i = Some x → Py.index x l = Some i.
Proof.
  intros Hnd Hi. destruct (index_elem x l) as [j Hj].
  { eapply list_elem_of_lookup_2; eauto. }
  rewrite Hj. f_equal. apply index_Some in Hj.
  eapply NoDup_lookup; eauto.
Qed.

End Index.

Lemma all_cats_NoDup cats_in1 cats_in2 : NoDup (all_cats_of cats_in1 cats_in2).
Proof.
  unfold all_cats_of, sort_strings, Py.distinct.
  rewrite merge_sort_Permutation. apply NoDup_remove_dups.
Qed.

Lemma all_cats_elem cats_in1 cats_in2 cat :
  cat ∈ all_cats_of cats_in1 cats_in2 ↔ cat ∈ cats_in1 ∨ cat ∈ cats_in2.
Proof.
  unfold all_cats_of, sort_strings, Py.distinct.
  rewrite merge_sort_Permutation, elem_of_remove_dups, elem_of_app. done.
Qed.

Lemma new_cats_length all_cats : length (new_cats_of all_cats) = length all_cats.
Proof. unfold new_cats_of. by rewrite length_fmap, length_seq. Qed.

Lemma new_cats_lookup all_cats (i : nat) :
  (i < length all_cats)%nat → new_cats_of all_cats !! i = Some (Z.of_nat i + 1).
Proof.
  intros Hi. unfold new_cats_of. rewrite list_lookup_fmap, lookup_seq_lt by done.
  simpl. f_equal. lia.
Qed.

Lemma new_cats_NoDup all_cats : NoDup (new_cats_of all_cats).
Proof.
  unfold new_cats_of. apply NoDup_fmap_2; [|apply NoDup_seq].
  intros x y. lia.
Qed.

(** A rank between 1 and the size of the universe is found in the rank
    table, at the position before it. *)
Lemma index_new_cats all_cats (rank : Z) :
  1 ≤ rank ≤ Z.of_nat (length all_cats) →
  Py.index rank (new_cats_of all_cats) = Some (Z.to_nat (rank - 1)).
Proof.
  intros Hr. apply index_NoDup; [apply new_cats_NoDup|].
  rewrite new_cats_lookup by lia. f_equal. lia.
Qed.

Lemma category_of_rank_ok all_cats (rank : Z) :
  1 ≤ rank ≤ Z.of_nat (length all_cats) →
  ∃ cat, all_cats !! Z.to_nat (rank - 1) = Some cat
         ∧ category_of_rank all_cats (new_cats_of all_cats) rank = mret cat.
Proof.
  intros Hr. destruct (lookup_lt_is_Some_2 all_cats (Z.to_nat (rank - 1))) as [cat Hcat];
    [lia|].
  exists cat. split; [done|].
  unfold category_of_rank. rewrite index_new_cats by done.
  rewrite or_raise_Some, bind_ret, Hcat. done.
Qed.

(** The two ranks come back out of [from_rank + 1000 * to_rank] as long as
    the first one is below 1000. *)
Lemma ranks_of_code (from_rank to_rank : Z) :
  0 ≤ from_rank < 1000 →
  changed_from_reclass (from_rank + 1000 * to_rank) = from_rank
  ∧ changed_to_reclass (from_rank + 1000 * to_rank) = to_rank.
Proof.
  intros Hf. unfold changed_to_reclass, changed_from_reclass.
  assert ((from_rank + 1000 * to_rank) `mod` 1000 = from_rank) as ->.
  { replace (from_rank + 1000 * to_rank) with (from_rank + to_rank * 1000) by lia.
    rewrite Z_mod_plus_full. apply Z.mod_small. lia. }
  split; [done|].
  replace (from_rank + 1000 * to_rank - from_rank) with (to_rank * 1000) by lia.
  apply Z.quot_mul. lia.
Qed.

(** ** The cell-level meaning of the two reclassifications *)

Lemma r_reclass_rank all_cats (cell : Z) (i : nat) :
  NoDup all_cats → all_cats !! i = Some (Py.str cell) →
  r_reclass all_cats (Py.str <$> new_cats_of all_cats) cell = Some (Z.of_nat i + 1).
Proof.
  intros Hnd Hi. unfold r_reclass.
  rewrite (index_NoDup _ _ i) by done. simpl.
  rewrite list_lookup_fmap, new_cats_lookup by (eapply lookup_lt_Some; eauto).
  simpl. rewrite first_word_str. apply int_str.
Qed.

Lemma r_reclass_rank_t1000 all_cats (cell : Z) (i : nat) :
  NoDup all_cats → all_cats !! i = Some (Py.str cell) →
  r_reclass all_cats (new_cats_t1000_of (new_cats_of all_cats)) cell
  = Some (1000 * (Z.of_nat i + 1)).
Proof.
  intros Hnd Hi. unfold r_reclass, new_cats_t1000_of.
  rewrite (index_NoDup _ _ i) by done. simpl.
  rewrite list_lookup_fmap, new_cats_lookup by (eapply lookup_lt_Some; eauto).
  simpl. rewrite first_word_str. apply int_str.
Qed.

(** The comparison with the epsilon tells whether a distance is zero. *)
Lemma less_than_epsilon (v : Z) :
  0 ≤ v → less_than v GRASS_EPSILON = bool_decide (v = 0).
Proof.
  intros Hv. unfold less_than, Qle_bool.
  change (Qnum (literal_01_16f GRASS_EPSILON)) with 10.
  change (QDen (literal_01_16f GRASS_EPSILON)) with 10000000000000000.
  simpl. case_bool_decide as Hz.
  - subst. reflexivity.
  - apply negb_false_iff, Z.leb_le. lia.
Qed.

Lemma eval_change_expression (ρ : string → option Z) input0 input1 map1_recl map2_recl a b :
  ρ input0 = Some a → ρ input1 = Some b →
  eval ρ (change_expression input0 input1 map1_recl map2_recl)
  = if decide (a = b) then Some 0
    else x ← ρ map1_recl; y ← ρ map2_recl; Some (x + y).
Proof.
  intros Ha Hb. unfold change_expression. cbn [eval]. rewrite Ha, Hb.
  cbn [mbind option_bind]. rewrite less_than_epsilon by lia.
  destruct (decide (a = b)) as [->|Hne].
  - rewrite bool_decide_true by lia. done.
  - rewrite bool_decide_false by lia. done.
Qed.

(** ** The encoder and the decoder *)

(** C10.  In a universe of fewer than 1000 categories, for every code
    [from_rank + 1000 * to_rank] with both ranks between 1 and the size of
    the universe, the code is not a multiple of 1000, the decoder gets the
    two ranks back, and both of its look-ups in the rank table and in the
    universe succeed: decoding ends without an exception. *)
Theorem decode_lookups_succeed (all_cats : list string) (from_rank to_rank : Z) :
  Z.of_nat (length all_cats) < 1000 →
  1 ≤ from_rank ≤ Z.of_nat (length all_cats) →
  1 ≤ to_rank ≤ Z.of_nat (length all_cats) →
  let code := from_rank + 1000 * to_rank in
  let new_cats := new_cats_of all_cats in
  code `mod` 1000 ≠ 0
  ∧ changed_from_reclass code = from_rank
  ∧ changed_to_reclass code = to_rank
  ∧ ∃ changed_from changed_to,
      category_of_rank all_cats new_cats (code `mod` 1000) = Run [] (Done changed_from)
      ∧ category_of_rank all_cats new_cats ((code - code `mod` 1000) `quot` 1000)
        = Run [] (Done changed_to)
      ∧ decode all_cats new_cats (Py.str code) = Run [] (Done (changed_from, changed_to)).
Proof.
  intros Hsize Hfrom Hto code new_cats.
  destruct (ranks_of_code from_rank to_rank) as [Hf Ht]; [lia|].
  fold code in Hf, Ht.
  destruct (category_of_rank_ok all_cats from_rank Hfrom) as (cf & _ & Hcf).
  destruct (category_of_rank_ok all_cats to_rank Hto) as (ct & _ & Hct).
  split; [unfold changed_from_reclass in Hf; lia|].
  do 2 (split; [done|]).
  exists cf, ct. unfold changed_to_reclass, changed_from_reclass in Hf, Ht.
  rewrite Ht, Hf. do 2 (split; [done|]).
  unfold decode. rewrite int_str, or_raise_Some, bind_ret.
  unfold changed_to_reclass, changed_from_reclass. rewrite Ht, Hf.
  fold new_cats in Hcf, Hct. rewrite Hcf, bind_ret, Hct, bind_ret. done.
Qed.

Lemma decode_lookups_succeed_witness :
  let all_cats := ["10"; "20"; "30"] in
  let code := 3 + 1000 * 2 in
  code `mod` 1000 ≠ 0
  ∧ changed_from_reclass code = 3
  ∧ changed_to_reclass code = 2
  ∧ ∃ changed_from changed_to,
      category_of_rank all_cats (new_cats_of all_cats) (code `mod` 1000)
      = Run [] (Done changed_from)
      ∧ category_of_rank all_cats (new_cats_of all_cats)
          ((code - code `mod` 1000) `quot` 1000) = Run [] (Done changed_to)
      ∧ decode all_cats (new_cats_of all_cats) (Py.str code)
        = Run [] (Done (changed_from, changed_to)).
Proof. apply (decode_lookups_succeed ["10"; "20"; "30"] 3 2); simpl; lia. Defined.

(** C2.  With fewer than 1000 categories in the universe, every non-zero
    code the encoder writes for a cell decodes to the pair of categories the
    two input layers hold in that cell: [code mod 1000] and
    [(code - code mod 1000) / 1000], looked up in the rank table, give back
    the category of the first layer and that of the second. *)
Theorem decode_recovers_pair (cats_in1 cats_in2 : list string) (ρ : string → option Z)
    (input0 input1 map1_recl map2_recl : string) (a b code : Z) :
  let all_cats := all_cats_of cats_in1 cats_in2 in
  let new_cats := new_cats_of all_cats in
  (length all_cats < 1000)%nat →
  Py.str a ∈ cats_in1 → Py.str b ∈ cats_in2 →
  ρ input0 = Some a → ρ input1 = Some b →
  ρ map1_recl = r_reclass all_cats (Py.str <$> new_cats) a →
  ρ map2_recl = r_reclass all_cats (new_cats_t1000_of new_cats) b →
  eval ρ (change_expression input0 input1 map1_recl map2_recl) = Some code →
  code ≠ 0 →
  decode all_cats new_cats (Py.str code) = Run [] (Done (Py.str a, Py.str b)).
Proof.
  intros all_cats new_cats Hsize Ha Hb Hin0 Hin1 Hm1 Hm2 Heval Hcode.
  assert (Hnd : NoDup all_cats) by apply all_cats_NoDup.
  assert (Py.str a ∈ all_cats) as [i Hi]%list_elem_of_lookup_1
    by (apply all_cats_elem; auto).
  assert (Py.str b ∈ all_cats) as [j Hj]%list_elem_of_lookup_1
    by (apply all_cats_elem; auto).
  pose proof (lookup_lt_Some _ _ _ Hi) as Hilt.
  pose proof (lookup_lt_Some _ _ _ Hj) as Hjlt.
  rewrite (eval_change_expression ρ _ _ _ _ a b) in Heval by done.
  destruct (decide (a = b)) as [->|Hne]; [congruence|].
  unfold new_cats in Hm1, Hm2.
  rewrite (r_reclass_rank all_cats a i) in Hm1 by done.
  rewrite (r_reclass_rank_t1000 all_cats b j) in Hm2 by done.
  rewrite Hm1, Hm2 in Heval. simpl in Heval. injection Heval as <-.
  destruct (ranks_of_code (Z.of_nat i + 1) (Z.of_nat j + 1)) as [Hf Ht]; [lia|].
  destruct (category_of_rank_ok all_cats (Z.of_nat i + 1)) as (cf & Hcf & Hrf); [lia|].
  destruct (category_of_rank_ok all_cats (Z.of_nat j + 1)) as (ct & Hct & Hrt); [lia|].
  replace (Z.to_nat (Z.of_nat i + 1 - 1)) with i in Hcf by lia.
  replace (Z.to_nat (Z.of_nat j + 1 - 1)) with j in Hct by lia.
  assert (cf = Py.str a) as -> by congruence.
  assert (ct = Py.str b) as -> by congruence.
  unfold decode. rewrite int_str, or_raise_Some, bind_ret, Hf, Ht.
  fold new_cats in Hrf, Hrt. rewrite Hrf, bind_ret, Hrt, bind_ret. done.
Qed.

Lemma decode_recovers_pair_witness :
  decode (all_cats_of ["1"; "2"] ["2"; "3"])
         (new_cats_of (all_cats_of ["1"; "2"] ["2"; "3"])) (Py.str 3001)
  = Run [] (Done (Py.str 1, Py.str 3)).
Proof.
  apply (decode_recovers_pair ["1"; "2"] ["2"; "3"] example_cell
           "lu96" "lu06" "map1_out_7" "map2_out_7" 1 3 3001);
    try (vm_compute; reflexivity); try (vm_compute; lia);
    try (vm_compute; repeat constructor).
Defined.

(** C5.  A cell in which the two input layers hold the same category is
    encoded as 0, whatever the two reclassified layers hold there (even
    null); the test compares the values of the input layers themselves.
    When they differ, the cell gets the sum of the two reclassified
    layers. *)
Theorem no_change_is_zero (ρ : string → option Z)
    (input0 input1 map1_recl map2_recl : string) (a b : Z) :
  ρ input0 = Some a → ρ input1 = Some b →
  let encoded := eval ρ (change_expression input0 input1 map1_recl map2_recl) in
  (a = b → encoded = Some 0)
  ∧ (a ≠ b → encoded = (x ← ρ map1_recl; y ← ρ map2_recl; Some (x + y)))
  ∧ (encoded = Some 0 → a = b ∨ (∃ x, ρ map1_recl = Some x ∧ ρ map2_recl = Some (- x))).
Proof.
  intros Ha Hb encoded. unfold encoded.
  rewrite (eval_change_expression ρ _ _ _ _ a b) by done.
  destruct (decide (a = b)) as [->|Hne].
  - split; [done|]. split; [done|]. auto.
  - split; [done|]. split; [done|]. intros H. right.
    destruct (ρ map1_recl) as [x|]; [|done].
    destruct (ρ map2_recl) as [y|]; [|done].
    simpl in H. exists x. split; [done|]. f_equal. injection H. lia.
Qed.

Lemma no_change_is_zero_witness :
  eval unchanged_cell (change_expression "lu96" "lu06" "map1_out_7" "map2_out_7") = Some 0.
Proof.
  apply (no_change_is_zero unchanged_cell "lu96" "lu06" "map1_out_7" "map2_out_7" 5 5);
    reflexivity.
Defined.

(** ** The dense remapper *)

Lemma mapM_or_raise {A B} (e : Py.exn) (f : A → option B) (l : list A) :
  mapM (λ x, or_raise e (f x)) l = or_raise e (mapM f l).
Proof.
  induction l as [|x l IH]; [done|]. cbn [mapM]. rewrite IH.
  destruct (f x) as [y|]; [|done]. rewrite or_raise_Some, bind_ret. simpl.
  destruct (mapM f l); [|done]. rewrite or_raise_Some, bind_ret. done.
Qed.

Lemma result_or_raise {A} (e : Py.exn) (o : option A) (a : A) :
  result (or_raise e o) = Done a → o = Some a.
Proof. destruct o; simpl; congruence. Qed.

Lemma result_bind {A B} (m : run A) (k : A → run B) (b : B) :
  result (m ≫= k) = Done b → ∃ a, result m = Done a ∧ result (k a) = Done b.
Proof.
  unfold mbind, run_bind. destruct (result m) as [a| |]; simpl; [eauto|done..].
Qed.

(** Overwriting the entries at the positions [idcs] with [v]. *)
Lemma lookup_foldl_insert {A} (v : A) (idcs : list nat) (l : list A) (i : nat) :
  foldl (λ acc index, <[index := v]> acc) l idcs !! i
  = if bool_decide (i ∈ idcs) then (λ _, v) <$> l !! i else l !! i.
Proof.
  revert l. induction idcs as [|j idcs IH]; intros l; cbn [foldl].
  - case_bool_decide as H; [by apply elem_of_nil in H|done].
  - rewrite IH. destruct (decide (i = j)) as [->|Hne].
    + rewrite (bool_decide_true (j ∈ j :: idcs)) by set_solver.
      destruct (decide (j < length l)%nat).
      * rewrite list_lookup_insert_eq by done.
        destruct (lookup_lt_is_Some_2 l j) as [x ->]; [done|].
        case_bool_decide; reflexivity.
      * rewrite list_insert_ge by lia. rewrite (lookup_ge_None_2 l j) by lia.
        case_bool_decide; reflexivity.
    + rewrite list_lookup_insert_ne by done.
      rewrite (bool_decide_ext (i ∈ j :: idcs) (i ∈ idcs)); [done|].
      rewrite elem_of_cons. tauto.
Qed.

Lemma first_word_ignored_rule (ignore_out_cat : Z) (ignore_label : option string) :
  first_word (ignored_rule ignore_out_cat ignore_label) = Py.str ignore_out_cat.
Proof.
  unfold ignored_rule.
  assert (∀ rest, first_word ((Py.str ignore_out_cat +:+ " areas ignored") +:+ rest)
                  = Py.str ignore_out_cat) as Happ.
  { intros rest. rewrite append_assoc. apply first_word_str_blank. }
  destruct ignore_label as [label|].
  - destruct (Py.truthy label); [apply Happ|]. apply first_word_str_blank.
  - apply first_word_str_blank.
Qed.

(** What the final reclassification does to a cell holding a listed code:
    an ignored code goes to the category of the ignored areas, which is the
    number of listed codes plus 9; any other code goes to its position in
    the list. *)
Lemma dense_remap_reclass (lines : list string)
    (ignore : option (list string * option string))
    (old_vals rules : list string) (ignore_out_cat : option Z) (code : Z) (i : nat) :
  result (dense_remap lines ignore) = Done (old_vals, rules, ignore_out_cat) →
  Py.index (Py.str code) old_vals = Some i →
  length old_vals = length lines
  ∧ ignore_out_cat = (λ _, Z.of_nat (length lines) - 1 + 10) <$> ignore
  ∧ r_reclass old_vals rules code
    = if bool_decide (Py.str code ∈ ignored_codes ignore) then ignore_out_cat
      else Some (Z.of_nat i).
Proof.
  unfold dense_remap. intros Hres Hidx.
  apply result_bind in Hres as (old_labels & Hlabels & Hres).
  unfold second_field in Hlabels. rewrite mapM_or_raise in Hlabels.
  apply result_or_raise in Hlabels. pose proof (length_mapM _ _ _ Hlabels) as Hlen.
  set (firsts := (λ s, hd "" (Py.split ":" s)) <$> lines) in *.
  set (plain := zip_with _ _ old_labels) in *.
  pose proof (index_Some _ _ _ Hidx) as Hi.
  assert (length old_vals = length lines ∧ old_vals = firsts) as [Hlen' ->].
  { destruct ignore as [[cats lbl]|]; simpl in Hres.
    - apply result_bind in Hres as (? & _ & Hres).
      apply result_bind in Hres as (? & _ & Hres). simpl in Hres.
      injection Hres as <- _ _. unfold firsts. by rewrite length_fmap.
    - injection Hres as <- _ _. unfold firsts. by rewrite length_fmap. }
  split; [done|].
  assert (Hilt : (i < length lines)%nat).
  { rewrite <- Hlen'. eapply lookup_lt_Some; eauto. }
  assert (Hplain : ∃ label, plain !! i
                            = Some (Py.str (Z.of_nat i) +:+ String " " (String " " label))).
  { destruct (lookup_lt_is_Some_2 old_labels i) as [label Hl]; [lia|].
    exists label. unfold plain. rewrite lookup_zip_with, list_lookup_fmap.
    rewrite lookup_seq_lt by done. simpl. rewrite Hl. done. }
  destruct Hplain as [label Hplain].
  unfold r_reclass. rewrite Hidx. simpl.
  destruct ignore as [[cats lbl]|]; simpl in Hres; cbn [ignored_codes].
  - apply result_bind in Hres as (idcs & Hidcs & Hres).
    rewrite mapM_or_raise in Hidcs. apply result_or_raise, mapM_Some in Hidcs.
    apply result_bind in Hres as (max_out_val & Hmax & Hres).
    apply result_or_raise in Hmax. simpl in Hres. injection Hres as <- <-.
    assert (max_out_val = Z.of_nat (length lines) - 1) as ->.
    { rewrite fmap_last, last_lookup, length_seq in Hmax.
      rewrite lookup_seq_lt in Hmax by lia. simpl in Hmax.
      injection Hmax as <-. lia. }
    split; [done|].
    rewrite lookup_foldl_insert, Hplain.
    assert (i ∈ idcs ↔ Py.str code ∈ cats) as Hiff.
    { split.
      - intros [k Hk]%list_elem_of_lookup_1.
        destruct (Forall2_lookup_r _ _ _ _ _ Hidcs Hk) as (cat & Hcat & Hci).
        apply index_Some in Hci. assert (cat = Py.str code) as <- by congruence.
        eapply list_elem_of_lookup_2; eauto.
      - intros [k Hk]%list_elem_of_lookup_1.
        destruct (Forall2_lookup_l _ _ _ _ _ Hidcs Hk) as (j & Hj & Hcj).
        assert (j = i) as -> by congruence.
        eapply list_elem_of_lookup_2; eauto. }
    destruct (decide (Py.str code ∈ cats)) as [Hin|Hout].
    + rewrite !bool_decide_true by tauto. simpl.
      rewrite first_word_ignored_rule. apply int_str.
    + rewrite !bool_decide_false by tauto. simpl.
      rewrite first_word_str_blank. apply int_str.
  - injection Hres as <- <-. split; [done|].
    rewrite bool_decide_false by apply not_elem_of_nil. rewrite Hplain. simpl.
    rewrite first_word_str_blank. apply int_str.
Qed.


(** C3, as stated, fails: with the code 1002 ignored, the codes 0 and 3001
    that are kept get the ordinals 0 and 2, and 1 is left out. *)
Lemma kept_ordinals_have_gap :
  result (for_each (label_code ["1"; "2"; "3"] [1; 2; 3] (Some 2) false [])
                   (cats_cd_tmp gap_engine) (["0:No Change"], []))
  = Done (["0:No Change"; "1002:Change from 2 to 1"; "3001:Change from 1 to 3"],
          ["1002"])
  ∧ result (dense_remap (old_vals_labels gap_engine) (Some (["1002"], None)))
    = Done (["0"; "1002"; "3001"],
            ["0  No Change"; "12 areas ignored"; "2  Change from 1 to 3"], Some 12)
  ∧ FeedCommand "r.reclass"
      [("input", "change_temp2_7"); ("output", "tmp_reclass_7"); ("rules", "-")]
      ("0 = 0  No Change" +:+ Py.nl +:+ "1002 = 12 areas ignored" +:+ Py.nl
       +:+ "3001 = 2  Change from 1 to 3" +:+ Py.nl)
    ∈ trace (main gap_options gap_flags gap_engine)
  ∧ kept_ordinals ["0"; "1002"; "3001"]
      ["0  No Change"; "12 areas ignored"; "2  Change from 1 to 3"] ["1002"]
    = [Some 0; Some 2]
  ∧ ¬ gap_free (kept_ordinals ["0"; "1002"; "3001"]
                  ["0  No Change"; "12 areas ignored"; "2  Change from 1 to 3"] ["1002"]).
Proof.
  split; [vm_compute; reflexivity|]. split; [vm_compute; reflexivity|].
  split; [vm_compute; do 5 right; left|].
  split; [vm_compute; reflexivity|].
  vm_compute. discriminate.
Qed.

(** C3, amended.  A code that is not ignored gets as its ordinal its
    position, counted from 0, in the list of all the codes discovered, the
    ignored ones included.  So code 0 gets ordinal 0 when it is listed
    first, and the ordinals of the codes that are kept grow with the
    discovery order; they are without gaps when nothing is ignored. *)
Theorem ordinal_is_position (lines : list string)
    (ignore : option (list string * option string))
    (old_vals rules : list string) (ignore_out_cat : option Z) :
  result (dense_remap lines ignore) = Done (old_vals, rules, ignore_out_cat) →
  (∀ (code : Z) (i : nat),
     Py.index (Py.str code) old_vals = Some i →
     Py.str code ∉ ignored_codes ignore →
     r_reclass old_vals rules code = Some (Z.of_nat i))
  ∧ (head old_vals = Some "0" → "0" ∉ ignored_codes ignore →
     r_reclass old_vals rules 0 = Some 0)
  ∧ (ignored_codes ignore = [] →
     ∀ (code : Z) (i : nat), old_vals !! i = Some (Py.str code) → NoDup old_vals →
       r_reclass old_vals rules code = Some (Z.of_nat i)).
Proof.
  intros Hres.
  assert (∀ (code : Z) (i : nat),
            Py.index (Py.str code) old_vals = Some i →
            Py.str code ∉ ignored_codes ignore →
            r_reclass old_vals rules code = Some (Z.of_nat i)) as Hpos.
  { intros code i Hidx Hkept.
    destruct (dense_remap_reclass _ _ _ _ _ code i Hres Hidx) as (_ & _ & ->).
    by rewrite bool_decide_false. }
  split; [exact Hpos|]. split.
  - intros Hhd Hkept. apply (Hpos 0 0%nat); [|done].
    destruct old_vals as [|v vs]; [done|]. injection Hhd as ->. done.
  - intros Hnone code i Hi Hnd. apply Hpos.
    + by apply index_NoDup.
    + rewrite Hnone. apply not_elem_of_nil.
Qed.

Lemma ordinal_is_position_witness :
  (∀ (code : Z) (i : nat),
     Py.index (Py.str code) ["0"; "1002"; "3001"] = Some i →
     Py.str code ∉ ignored_codes (Some (["1002"], None)) →
     r_reclass ["0"; "1002"; "3001"]
       ["0  No Change"; "12 areas ignored"; "2  Change from 1 to 3"] code
     = Some (Z.of_nat i))
  ∧ (head ["0"; "1002"; "3001"] = Some "0" →
     "0" ∉ ignored_codes (Some (["1002"], None)) →
     r_reclass ["0"; "1002"; "3001"]
       ["0  No Change"; "12 areas ignored"; "2  Change from 1 to 3"] 0 = Some 0)
  ∧ (ignored_codes (Some (["1002"], None)) = [] →
     ∀ (code : Z) (i : nat),
       ["0"; "1002"; "3001"] !! i = Some (Py.str code) → NoDup ["0"; "1002"; "3001"] →
       r_reclass ["0"; "1002"; "3001"]
         ["0  No Change"; "12 areas ignored"; "2  Change from 1 to 3"] code
       = Some (Z.of_nat i)).
Proof.
  apply (ordinal_is_position (old_vals_labels gap_engine) (Some (["1002"], None))
           ["0"; "1002"; "3001"]
           ["0  No Change"; "12 areas ignored"; "2  Change from 1 to 3"] (Some 12)).
  vm_compute. reflexivity.
Defined.



(** ** The ignore value *)

(** C7.  When the value to ignore is in neither input layer, the run is the
    run without the option, preceded by one warning: nothing is flagged as
    ignored, no category for ignored areas and no colour for it is made,
    and the run ends as it would without the option. *)
Theorem absent_ignore_value_is_noop (options : Options) (flags : Flags) (engine : Engine)
    (input0 input1 : string) :
  Py.split "," (opt_input options) = [input0; input1] →
  Py.truthy (opt_ignore_value options) = true →
  opt_ignore_value options
    ∉ all_cats_of (cats_of (cats_in1_tmp engine)) (cats_of (cats_in2_tmp engine)) →
  let plain := main (without_ignore_value options) flags engine in
  main options flags engine
  = Run (Warning ("Value to ignore (" +:+ opt_ignore_value options
                  +:+ ") does not exist in input maps") :: trace plain)
        (result plain).
Proof.
  intros Hsplit Htruthy Habsent plain. unfold plain, main, without_ignore_value.
  cbn [opt_input opt_output opt_window_size opt_csv_path opt_ignore_value].
  rewrite Hsplit. cbv zeta.
  rewrite all_cats_elem in Habsent.
  assert (Py.contains (opt_ignore_value options) (cats_of (cats_in1_tmp engine)) = false)
    as -> by (apply bool_decide_false; tauto).
  assert (Py.contains (opt_ignore_value options) (cats_of (cats_in2_tmp engine)) = false)
    as -> by (apply bool_decide_false; tauto).
  rewrite Htruthy. change (Py.truthy "") with false.
  cbn [andb orb negb]. rewrite bind_ret. reflexivity.
Qed.

Lemma absent_ignore_value_is_noop_witness :
  main absent_options gap_flags gap_engine
  = Run (Warning ("Value to ignore (" +:+ opt_ignore_value absent_options
                  +:+ ") does not exist in input maps")
           :: trace (main (without_ignore_value absent_options) gap_flags gap_engine))
        (result (main (without_ignore_value absent_options) gap_flags gap_engine)).
Proof.
  apply (absent_ignore_value_is_noop absent_options gap_flags gap_engine "lu96" "lu06").
  - vm_compute. reflexivity.
  - reflexivity.
  - intros H. vm_compute in H.
    repeat (apply elem_of_cons in H as [H|H]; [discriminate|]).
    by apply elem_of_nil in H.
Defined.

(** ** The rules fed to [r.reclass] *)

Lemma append_empty (s : string) : s +:+ "" = s.
Proof.
  induction s as [|c s IH]; [done|].
  change (String c (s +:+ "") = String c s). by rewrite IH.
Qed.

Lemma reclass_string_from (k : nat) (values_in values_out : list string) (acc : string) :
  (k ≤ length values_out)%nat →
  for_each (λ reclass_string '(idx, item),
              out ← or_raise Py.IndexError (values_out !! idx);
              mret (reclass_string +:+ item +:+ " = " +:+ out +:+ Py.nl))
           (imap (λ i item, ((k + i)%nat, item)) values_in) acc
  = if decide (k + length values_in ≤ length values_out)%nat
    then mret (acc +:+ rules_text values_in (drop k values_out))
    else raise Py.IndexError.
Proof.
  revert k acc. induction values_in as [|item values_in IH]; intros k acc Hk.
  - simpl. rewrite decide_True by lia. by rewrite append_empty.
  - cbn [imap for_each]. rewrite Nat.add_0_r.
    rewrite (imap_ext _ (λ i item0, ((S k + i)%nat, item0)))
      by (intros; simpl; f_equal; lia).
    destruct (values_out !! k) as [out|] eqn:Hout.
    + rewrite or_raise_Some, bind_ret, bind_ret.
      pose proof (lookup_lt_Some _ _ _ Hout).
      rewrite IH by lia. rewrite (drop_S _ _ _ Hout). simpl length.
      destruct (decide (S k + length values_in ≤ length values_out)%nat);
        destruct (decide (k + S (length values_in) ≤ length values_out)%nat);
        try lia; [|done].
      cbn [rules_text]. rewrite !append_assoc. done.
    + apply lookup_ge_None_1 in Hout. simpl length.
      rewrite decide_False by lia. done.
Qed.

Lemma reclass_string_spec (values_in values_out : list string) :
  reclass_string values_in values_out
  = if decide (length values_in ≤ length values_out)%nat
    then mret (rules_text values_in values_out)
    else raise Py.IndexError.
Proof.
  unfold reclass_string.
  rewrite (imap_ext _ (λ i item, ((0 + i)%nat, item))) by done.
  rewrite reclass_string_from by lia. done.
Qed.

(** ** What a run can end with *)

Lemma no_fatal_ret {A} (a : A) : no_fatal (mret a : run A).
Proof. intros msg. done. Qed.

Lemma no_fatal_emit (e : event) : no_fatal (emit e).
Proof. intros msg. done. Qed.

Lemma no_fatal_raise {A} (e : Py.exn) : no_fatal (raise e : run A).
Proof. intros msg. done. Qed.

Lemma no_fatal_or_raise {A} (e : Py.exn) (o : option A) : no_fatal (or_raise e o).
Proof. intros msg. by destruct o. Qed.

Lemma no_fatal_bind {A B} (m : run A) (k : A → run B) :
  no_fatal m → (∀ a, no_fatal (k a)) → no_fatal (m ≫= k).
Proof.
  intros Hm Hk msg. unfold mbind, run_bind.
  destruct (result m) as [a|msg'|e] eqn:E; simpl; [apply Hk| |done].
  by destruct (Hm msg').
Qed.

Lemma no_fatal_fmap {A B} (f : A → B) (m : run A) : no_fatal m → no_fatal (f <$> m).
Proof. intros Hm. apply no_fatal_bind; [done|]. intros a. apply no_fatal_ret. Qed.

Lemma no_fatal_try_except {A} (m handler : run A) :
  no_fatal m → no_fatal handler → no_fatal (try_except m handler).
Proof.
  intros Hm Hh msg. unfold try_except.
  destruct (result m) as [a|msg'|e] eqn:E; simpl.
  - by rewrite E.
  - by destruct (Hm msg').
  - apply Hh.
Qed.

Lemma no_fatal_for_each {A S} (body : S → A → run S) (l : list A) (s : S) :
  (∀ s x, no_fatal (body s x)) → no_fatal (for_each body l s).
Proof.
  intros Hbody. revert s. induction l as [|x l IH]; intros s; simpl.
  - apply no_fatal_ret.
  - apply no_fatal_bind; auto.
Qed.

Lemma no_fatal_mapM {A B} (f : A → run B) (l : list A) :
  (∀ x, no_fatal (f x)) → no_fatal (mapM f l).
Proof.
  intros Hf. induction l as [|x l IH]; cbn [mapM].
  - apply no_fatal_ret.
  - apply no_fatal_bind; [done|]. intros y.
    apply no_fatal_bind; [done|]. intros k. apply no_fatal_ret.
Qed.

(** Splits a goal [no_fatal r] along the binds, branches and loops of [r]. *)
Ltac no_fatal_step :=
  match goal with
  | |- no_fatal (mret _) => apply no_fatal_ret
  | |- no_fatal (emit _) => apply no_fatal_emit
  | |- no_fatal (raise _) => apply no_fatal_raise
  | |- no_fatal (or_raise _ _) => apply no_fatal_or_raise
  | |- no_fatal (_ <$> _) => apply no_fatal_fmap
  | |- no_fatal (try_except _ _) => apply no_fatal_try_except
  | |- no_fatal (for_each _ _ _) => apply no_fatal_for_each; intros ? ?
  | |- no_fatal (mapM _ _) => apply no_fatal_mapM; intros ?
  | |- no_fatal (_ ≫= _) => apply no_fatal_bind; [|intros ?]
  | |- no_fatal (if ?b then _ else _) => destruct b
  | |- no_fatal (match ?x with _ => _ end) => destruct x
  | |- no_fatal (let '(_, _) := ?x in _) => destruct x
  end.

Lemma no_fatal_reclassify map_in map_out values_in values_out :
  no_fatal (reclassify map_in map_out values_in values_out).
Proof. unfold reclassify, reclass_string. repeat no_fatal_step. Qed.

Lemma no_fatal_read_labels engine ignore cats_in1 cats_in2 :
  no_fatal (read_labels engine ignore cats_in1 cats_in2).
Proof. unfold read_labels, second_field. repeat no_fatal_step. Qed.

Lemma no_fatal_label_code all_cats new_cats new_ignore_val labels labellist acc item :
  no_fatal (label_code all_cats new_cats new_ignore_val labels labellist acc item).
Proof.
  unfold label_code, decode, category_of_rank, label_of. repeat no_fatal_step.
Qed.

Lemma no_fatal_dense_remap lines ignore : no_fatal (dense_remap lines ignore).
Proof. unfold dense_remap, second_field. repeat no_fatal_step. Qed.

Lemma no_fatal_add_header csvfile content : no_fatal (add_header csvfile content).
Proof. unfold add_header. repeat no_fatal_step. Qed.

Lemma reclassify_spec map_in map_out values_in values_out :
  (length values_in ≤ length values_out)%nat →
  reclassify map_in map_out values_in values_out
  = emit (FeedCommand "r.reclass"
            [("input", map_in); ("output", map_out); ("rules", "-")]
            (rules_text values_in values_out)).
Proof.
  intros Hlen. unfold reclassify. rewrite reclass_string_spec, decide_True by done.
  by rewrite bind_ret.
Qed.

Lemma reclassify_short map_in map_out values_in values_out :
  (length values_out < length values_in)%nat →
  reclassify map_in map_out values_in values_out = raise Py.IndexError.
Proof.
  intros Hlen. unfold reclassify. rewrite reclass_string_spec, decide_False by lia.
  done.
Qed.

(** Reading the labels cannot fail: it ends with a value and writes at most
    one warning. *)
Lemma read_labels_done engine ignore cats_in1 cats_in2 :
  ∃ warnings value,
    read_labels engine ignore cats_in1 cats_in2 = Run warnings (Done value)
    ∧ only_warnings warnings.
Proof.
  unfold read_labels, second_field. rewrite !mapM_or_raise.
  assert (∀ w, only_warnings [Warning w]) as Hw.
  { intros w. constructor; [eauto|constructor]. }
  destruct (mapM _ (cats_in1_tmp engine)) as [labels_in1|];
    [|by eexists _, _; split; [reflexivity|apply Hw]].
  rewrite or_raise_Some, bind_ret.
  destruct (mapM _ (cats_in2_tmp engine)) as [labels_in2|];
    [|by eexists _, _; split; [reflexivity|apply Hw]].
  rewrite or_raise_Some, bind_ret.
  destruct (negb _).
  { eexists _, _; split; [reflexivity|apply Hw]. }
  destruct ignore as [str_val|]; [|by eexists _, _; split; [reflexivity|constructor]].
  destruct (head _) as [label|].
  - rewrite or_raise_Some, bind_ret. eexists _, _; split; [reflexivity|constructor].
  - eexists _, _; split; [reflexivity|apply Hw].
Qed.

Lemma main_no_fatal (options : Options) (flags : Flags) (engine : Engine)
    (input0 input1 : string) :
  Py.split "," (opt_input options) = [input0; input1] →
  no_fatal (main options flags engine).
Proof.
  intros Hsplit. unfold main. rewrite Hsplit. cbv zeta.
  repeat first
    [ apply no_fatal_reclassify | apply no_fatal_read_labels
    | apply no_fatal_label_code | apply no_fatal_dense_remap
    | apply no_fatal_add_header | no_fatal_step ].
Qed.

(** ** The size of the universe *)

(** C1, as stated, fails: with 1000 categories the run ends normally. *)
Lemma collision_guard_absent :
  length (all_cats_of (cats_of (cats_in1_tmp crowded_engine))
                      (cats_of (cats_in2_tmp crowded_engine))) = 1000%nat
  ∧ result (main crowded_options gap_flags crowded_engine) = Done ()
  ∧ ¬ collision_guard crowded_options gap_flags crowded_engine.
Proof.
  assert (length (all_cats_of (cats_of (cats_in1_tmp crowded_engine))
                              (cats_of (cats_in2_tmp crowded_engine))) = 1000%nat)
    as Hsize by (vm_compute; reflexivity).
  assert (result (main crowded_options gap_flags crowded_engine) = Done ())
    as Hdone by (vm_compute; reflexivity).
  do 2 (split; [done|]).
  intros Hguard. destruct Hguard as [[msg Hmsg] _].
  - rewrite Hsize. done.
  - rewrite Hdone in Hmsg. discriminate.
Qed.

(** C1, amended.  The script does not check the size of the universe.
    Called with two input maps it never ends in a fatal error, however many
    categories there are: after at most warnings it feeds [r.reclass] the
    table of ranks for the first layer and the table of ranks times 1000
    for the second, one rule per category of the universe. *)
Theorem tables_built_for_any_universe (options : Options) (flags : Flags)
    (engine : Engine) (input0 input1 : string) :
  Py.split "," (opt_input options) = [input0; input1] →
  let all_cats := all_cats_of (cats_of (cats_in1_tmp engine))
                              (cats_of (cats_in2_tmp engine)) in
  let new_cats := new_cats_of all_cats in
  no_fatal (main options flags engine)
  ∧ ∃ warnings rest,
      only_warnings warnings
      ∧ trace (main options flags engine)
        = warnings
          ++ FeedCommand "r.reclass"
               [("input", input0); ("output", "map1_out_" +:+ pid engine); ("rules", "-")]
               (rules_text all_cats (Py.str <$> new_cats))
          :: FeedCommand "r.reclass"
               [("input", input1); ("output", "map2_out_" +:+ pid engine); ("rules", "-")]
               (rules_text all_cats (new_cats_t1000_of new_cats))
          :: rest.
Proof.
  intros Hsplit all_cats new_cats. split; [by eapply main_no_fatal|].
  unfold main. rewrite Hsplit. cbv zeta. fold all_cats. fold new_cats.
  set (str_val := opt_ignore_value options).
  set (exists_ := Py.truthy str_val && _).
  (* the warning about the value to ignore *)
  assert (∃ ws1, only_warnings ws1 ∧
            (if Py.truthy str_val && negb exists_
             then emit (Warning ("Value to ignore (" +:+ str_val
                                 +:+ ") does not exist in input maps"))
             else mret ()) = Run ws1 (Done ())) as (ws1 & Hws1 & ->).
  { destruct (Py.truthy str_val && negb exists_).
    - eexists. split; [|reflexivity]. constructor; [eauto|constructor].
    - exists []. split; [constructor|reflexivity]. }
  rewrite bind_done.
  (* reading the labels *)
  assert (∃ ws2 value, only_warnings ws2 ∧
            (if flag_l flags
             then read_labels engine (if exists_ then Some str_val else None)
                    (cats_of (cats_in1_tmp engine)) (cats_of (cats_in2_tmp engine))
             else mret (false, [], None)) = Run ws2 (Done value))
    as (ws2 & [[labels labellist] ignore_label] & Hws2 & ->).
  { destruct (flag_l flags).
    - destruct (read_labels_done engine (if exists_ then Some str_val else None)
                  (cats_of (cats_in1_tmp engine)) (cats_of (cats_in2_tmp engine)))
        as (ws & v & -> & Hws). eauto.
    - exists [], (false, [], None). split; [constructor|reflexivity]. }
  rewrite bind_done.
  (* the rank of the value to ignore *)
  assert (∃ new_ignore_val,
            (if exists_
             then ignore_idx ← or_raise Py.ValueError (Py.index str_val all_cats);
                  Some <$> or_raise Py.IndexError (new_cats !! ignore_idx)
             else mret None) = mret new_ignore_val) as [new_ignore_val ->].
  { destruct exists_ eqn:Hex; [|eauto].
    assert (str_val ∈ all_cats) as [i Hi]%index_elem.
    { apply all_cats_elem. unfold exists_ in Hex.
      apply andb_true_iff in Hex as [_ [H|H]%orb_true_iff];
        apply bool_decide_eq_true in H; auto. }
    rewrite Hi, or_raise_Some, bind_ret.
    apply index_Some, lookup_lt_Some in Hi.
    unfold new_cats. rewrite new_cats_lookup by done. eauto. }
  rewrite bind_ret.
  (* the two reclassifications *)
  rewrite !reclassify_spec
    by (unfold new_cats_t1000_of, new_cats; rewrite ?length_fmap, new_cats_length; done).
  unfold emit at 1 2. rewrite !bind_done. cbn [trace].
  eexists (ws1 ++ ws2), _. split; [by apply Forall_app|].
  rewrite <- !app_assoc. cbn [app]. reflexivity.
Qed.

Lemma tables_built_for_any_universe_witness :
  let all_cats := all_cats_of (cats_of (cats_in1_tmp crowded_engine))
                              (cats_of (cats_in2_tmp crowded_engine)) in
  let new_cats := new_cats_of all_cats in
  no_fatal (main crowded_options gap_flags crowded_engine)
  ∧ ∃ warnings rest,
      only_warnings warnings
      ∧ trace (main crowded_options gap_flags crowded_engine)
        = warnings
          ++ FeedCommand "r.reclass"
               [("input", "lu96"); ("output", "map1_out_" +:+ pid crowded_engine);
                ("rules", "-")]
               (rules_text all_cats (Py.str <$> new_cats))
          :: FeedCommand "r.reclass"
               [("input", "lu06"); ("output", "map2_out_" +:+ pid crowded_engine);
                ("rules", "-")]
               (rules_text all_cats (new_cats_t1000_of new_cats))
          :: rest.
Proof.
  apply (tables_built_for_any_universe crowded_options gap_flags crowded_engine
           "lu96" "lu06").
  vm_compute. reflexivity.
Defined.

(** ** Labels *)

(** C6 at the failing input: the labels are read without warning and label
    mode stays on, although category 1 has two labels and label [a] two
    categories; the count of distinct labels equals that of distinct
    categories all the same. *)
Lemma ambiguous_labels_accepted :
  read_labels swapped_engine None (cats_of (cats_in1_tmp swapped_engine))
              (cats_of (cats_in2_tmp swapped_engine))
  = Run [] (Done (true, [("1", "a"); ("1", "b"); ("2", "a")], None))
  ∧ ¬ one_to_one [("1", "a"); ("1", "b"); ("2", "a")]
  ∧ Py.len_set ([("1", "a"); ("1", "b"); ("2", "a")].*2)
    = Py.len_set ([("1", "a"); ("1", "b"); ("2", "a")].*1)
  ∧ legend (main swapped_options swapped_flags swapped_engine)
    = ["0:No Change" +:+ Py.nl +:+ "2001:Change from a to a"].
Proof.
  split; [vm_compute; reflexivity|]. split; [|split; vm_compute; reflexivity].
  intros H. assert ("1" = "1" ↔ "a" = "b") as [Hab _].
  { apply H; [left|right; left]. }
  specialize (Hab eq_refl). discriminate.
Qed.

(** C9 at the failing input: two runs on the same layers, with the same
    options, give different legends when their processes iterate the set of
    labels in different orders; both orders list each pair once. *)
Lemma legend_depends_on_set_order :
  set_order_ok (set_order swapped_engine)
  ∧ set_order_ok (set_order swapped_engine_rev)
  ∧ cats_in1_tmp swapped_engine = cats_in1_tmp swapped_engine_rev
  ∧ cats_in2_tmp swapped_engine = cats_in2_tmp swapped_engine_rev
  ∧ cats_cd_tmp swapped_engine = cats_cd_tmp swapped_engine_rev
  ∧ legend (main swapped_options swapped_flags swapped_engine)
    = ["0:No Change" +:+ Py.nl +:+ "2001:Change from a to a"]
  ∧ legend (main swapped_options swapped_flags swapped_engine_rev)
    = ["0:No Change" +:+ Py.nl +:+ "2001:Change from b to a"].
Proof.
  split; [intros l; reflexivity|].
  split; [intros l; simpl; by rewrite reverse_Permutation|].
  repeat split; vm_compute; reflexivity.
Qed.

(** ** The statistics file *)







Lemma concat_cons (x : string) (l : list string) :
  String.concat "" (x :: l) = x +:+ String.concat "" l.
Proof. destruct l; cbn [String.concat]; [by rewrite append_empty|done]. Qed.











Lemma ends_with_bind {A} (suffix : list event) (m : run A) (k : A → run ()) :
  (∀ a, ends_with suffix (k a)) → ends_with suffix (m ≫= k).
Proof.
  intros Hk Hres. unfold mbind, run_bind in *.
  destruct (result m) as [a| |]; simpl in *; [|done..].
  destruct (Hk a Hres) as [before Hbefore]. exists (trace m ++ before).
  by rewrite Hbefore, app_assoc.
Qed.




(** * Further properties of the script *)

(** ** [reclassify] *)

(** X1.  [reclassify] feeds [r.reclass] one rule [old = new] per old value,
    in order, when there are at least as many new values; with fewer new
    values it raises [IndexError] and [r.reclass] is not started. *)
Theorem reclassify_rules (map_in map_out : string) (values_in values_out : list string) :
  ((length values_in ≤ length values_out)%nat →
   reclassify map_in map_out values_in values_out
   = Run [FeedCommand "r.reclass"
            [("input", map_in); ("output", map_out); ("rules", "-")]
            (String.concat ""
               (zip_with (λ item out, item +:+ " = " +:+ out +:+ Py.nl)
                         values_in values_out))]
         (Done ()))
  ∧ ((length values_out < length values_in)%nat →
     reclassify map_in map_out values_in values_out = Run [] (Raised Py.IndexError)).
Proof.
  split.
  - intros Hlen. rewrite reclassify_spec by done. unfold emit. do 3 f_equal.
    clear Hlen. revert values_out.
    induction values_in as [|item values_in IH]; intros [|out values_out]; try done.
    cbn [rules_text zip_with]. rewrite concat_cons, IH, !append_assoc. done.
  - intros Hlen. by rewrite reclassify_short.
Qed.

Lemma reclassify_rules_witness :
  reclassify "lu96" "map1_out_7" ["1"; "2"] ["1"; "2"; "3"]
  = Run [FeedCommand "r.reclass"
           [("input", "lu96"); ("output", "map1_out_7"); ("rules", "-")]
           (String.concat ""
              (zip_with (λ item out, item +:+ " = " +:+ out +:+ Py.nl)
                        ["1"; "2"] ["1"; "2"; "3"]))]
        (Done ())
  ∧ reclassify "lu96" "map1_out_7" ["1"; "2"] ["1"] = Run [] (Raised Py.IndexError).
Proof.
  split.
  - apply (reclassify_rules "lu96" "map1_out_7" ["1"; "2"] ["1"; "2"; "3"]). simpl. lia.
  - apply (reclassify_rules "lu96" "map1_out_7" ["1"; "2"] ["1"]). simpl. lia.
Defined.

(** ** The number of input maps *)

(** X2.  The run ends in the fatal error about the input exactly when the
    [input] option does not name two maps, and then nothing has been
    written: no warning, no command. *)
Theorem fatal_iff_not_two_inputs (options : Options) (flags : Flags) (engine : Engine) :
  (length (Py.split "," (opt_input options)) ≠ 2%nat →
   main options flags engine = Run [] (Fatal "Input must consist of two raster maps"))
  ∧ (length (Py.split "," (opt_input options)) = 2%nat →
     no_fatal (main options flags engine)).
Proof.
  split.
  - intros Hlen. unfold main.
    destruct (Py.split "," (opt_input options)) as [|input0 [|input1 [|? ?]]]; done.
  - intros Hlen.
    destruct (Py.split "," (opt_input options)) as [|input0 [|input1 [|? ?]]] eqn:E;
      try done.
    by eapply main_no_fatal.
Qed.

Lemma fatal_iff_not_two_inputs_witness :
  main (without_ignore_value
          {| opt_input := "lu96"; opt_output := "change"; opt_window_size := "";
             opt_csv_path := ""; opt_ignore_value := "" |}) gap_flags gap_engine
  = Run [] (Fatal "Input must consist of two raster maps")
  ∧ no_fatal (main gap_options gap_flags gap_engine).
Proof.
  split.
  - apply fatal_iff_not_two_inputs. vm_compute. lia.
  - apply fatal_iff_not_two_inputs. vm_compute. reflexivity.
Defined.

(** ** The universe and its ranks *)

Lemma ascii_compare_trans (a b c : ascii) :
  Ascii.compare a b ≠ Gt → Ascii.compare b c ≠ Gt →
  Ascii.compare a c ≠ Gt
  ∧ (Ascii.compare a c = Eq → Ascii.compare a b = Eq ∧ Ascii.compare b c = Eq).
Proof.
  unfold Ascii.compare.
  destruct (N.compare_spec (N_of_ascii a) (N_of_ascii b)),
           (N.compare_spec (N_of_ascii b) (N_of_ascii c)),
           (N.compare_spec (N_of_ascii a) (N_of_ascii c));
    intros; split; try done; try lia.
Qed.

#[global] Instance str_le_trans : Transitive str_le.
Proof.
  unfold str_le, String.leb. intros s1.
  induction s1 as [|a s1 IH]; intros [|b s2] [|c s3]; simpl; try done.
  intros Hab Hbc.
  destruct (ascii_compare_trans a b c) as [Hgt Heq].
  { by destruct (Ascii.compare a b). }
  { by destruct (Ascii.compare b c). }
  destruct (Ascii.compare a c) eqn:Hac; try done.
  destruct Heq as [Hab' Hbc']; [done|]. rewrite Hab' in Hab. rewrite Hbc' in Hbc.
  by apply (IH s2 s3).
Qed.

#[global] Instance str_le_total : Total str_le.
Proof. intros x y. apply String.leb_total. Qed.

#[global] Instance str_le_antisym : AntiSymm eq str_le.
Proof. intros x y. apply String.leb_antisym. Qed.

(** X3.  The universe is the set of the categories of the two layers: it
    has no duplicates, it holds a category exactly when one of the layers
    does, it is in ascending code-point order of the category strings, and
    it does not depend on the order in which the set of categories is
    iterated before it is sorted. *)
Theorem universe_is_sorted_union (cats_in1 cats_in2 : list string) :
  let all_cats := all_cats_of cats_in1 cats_in2 in
  NoDup all_cats
  ∧ (∀ cat, cat ∈ all_cats ↔ cat ∈ cats_in1 ∨ cat ∈ cats_in2)
  ∧ StronglySorted str_le all_cats
  ∧ (∀ set_as_list, set_as_list ≡ₚ Py.distinct (cats_in1 ++ cats_in2) →
       sort_strings set_as_list = all_cats).
Proof.
  intros all_cats. split; [apply all_cats_NoDup|].
  split; [apply all_cats_elem|].
  assert (StronglySorted str_le all_cats) as Hsorted
    by apply (StronglySorted_merge_sort _).
  split; [done|].
  intros l Hl. apply (StronglySorted_unique str_le); [apply (StronglySorted_merge_sort _)|done|].
  unfold all_cats, all_cats_of, sort_strings. by rewrite !merge_sort_Permutation.
Qed.

Lemma encoded_at (all_cats : list string) (a b : Z) (i j : nat) :
  NoDup all_cats →
  all_cats !! i = Some (Py.str a) → all_cats !! j = Some (Py.str b) →
  encoded all_cats a b
  = if decide (a = b) then Some 0
    else Some ((Z.of_nat i + 1) + 1000 * (Z.of_nat j + 1)).
Proof.
  intros Hnd Hi Hj. unfold encoded.
  rewrite (eval_change_expression _ _ _ _ _ a b) by done.
  destruct (decide (a = b)); [done|].
  unfold cell_rasters. cbn.
  rewrite (r_reclass_rank all_cats a i), (r_reclass_rank_t1000 all_cats b j) by done.
  done.
Qed.

(** X4.  Every category of either layer has exactly one rank: the first
    table sends it to its position in the universe counted from 1, the
    second to 1000 times that; two categories with the same rank are the
    same, and a cell whose category is in neither layer becomes null. *)
Theorem every_category_has_one_rank (cats_in1 cats_in2 : list string) (a : Z) :
  let all_cats := all_cats_of cats_in1 cats_in2 in
  let from_map := r_reclass all_cats (Py.str <$> new_cats_of all_cats) in
  let to_map := r_reclass all_cats (new_cats_t1000_of (new_cats_of all_cats)) in
  (Py.str a ∈ cats_in1 ∨ Py.str a ∈ cats_in2 →
     ∃ rank, 1 ≤ rank ≤ Z.of_nat (length all_cats)
             ∧ all_cats !! Z.to_nat (rank - 1) = Some (Py.str a)
             ∧ from_map a = Some rank ∧ to_map a = Some (1000 * rank))
  ∧ (¬ (Py.str a ∈ cats_in1 ∨ Py.str a ∈ cats_in2) →
       from_map a = None ∧ to_map a = None)
  ∧ (∀ b, is_Some (from_map a) → from_map a = from_map b → a = b).
Proof.
  intros all_cats from_map to_map.
  assert (Hnd : NoDup all_cats) by apply all_cats_NoDup.
  assert (Hrank : ∀ c, Py.str c ∈ all_cats →
            ∃ i, all_cats !! i = Some (Py.str c)
                 ∧ from_map c = Some (Z.of_nat i + 1)
                 ∧ to_map c = Some (1000 * (Z.of_nat i + 1))).
  { intros c [i Hi]%list_elem_of_lookup_1. exists i. split; [done|].
    split; [by apply r_reclass_rank|by apply r_reclass_rank_t1000]. }
  assert (Hnone : ∀ c, Py.str c ∉ all_cats → from_map c = None ∧ to_map c = None).
  { intros c Hc. unfold from_map, to_map, r_reclass.
    destruct (Py.index (Py.str c) all_cats) as [i|] eqn:E; [|done].
    apply index_Some in E. destruct Hc. eapply list_elem_of_lookup_2; eauto. }
  split; [|split].
  - intros Hin. apply all_cats_elem in Hin. destruct (Hrank a Hin) as (i & Hi & Hf & Ht).
    exists (Z.of_nat i + 1). pose proof (lookup_lt_Some _ _ _ Hi).
    replace (Z.to_nat (Z.of_nat i + 1 - 1)) with i by lia.
    repeat split; try done; lia.
  - intros Hout. apply Hnone. unfold all_cats. by rewrite all_cats_elem.
  - intros b [rank Ha] Hab.
    destruct (decide (Py.str a ∈ all_cats)) as [Hina|Houta];
      [|destruct (Hnone a Houta); congruence].
    destruct (decide (Py.str b ∈ all_cats)) as [Hinb|Houtb];
      [|destruct (Hnone b Houtb); congruence].
    destruct (Hrank a Hina) as (i & Hi & Hfa & _).
    destruct (Hrank b Hinb) as (j & Hj & Hfb & _).
    assert (i = j) as -> by (rewrite Hfa, Hfb in Hab; injection Hab; lia).
    apply str_inj. congruence.
Qed.

(** X5.  In a universe of fewer than 1000 categories the encoding is free
    of collisions: two cells get the same code only if both are unchanged
    or both hold the same pair of categories. *)
Theorem codes_distinct_below_1000 (all_cats : list string) (a b a' b' : Z) :
  NoDup all_cats → (length all_cats < 1000)%nat →
  Py.str a ∈ all_cats → Py.str b ∈ all_cats →
  Py.str a' ∈ all_cats → Py.str b' ∈ all_cats →
  encoded all_cats a b = encoded all_cats a' b' →
  (a = b ∧ a' = b') ∨ (a = a' ∧ b = b').
Proof.
  intros Hnd Hsize [i Hi]%list_elem_of_lookup_1 [j Hj]%list_elem_of_lookup_1
         [i' Hi']%list_elem_of_lookup_1 [j' Hj']%list_elem_of_lookup_1.
  rewrite (encoded_at all_cats a b i j), (encoded_at all_cats a' b' i' j') by done.
  pose proof (lookup_lt_Some _ _ _ Hi). pose proof (lookup_lt_Some _ _ _ Hi').
  destruct (decide (a = b)), (decide (a' = b')); intros Heq;
    [auto | injection Heq; lia | injection Heq; lia | injection Heq as Heq].
  right. assert (i = i' ∧ j = j') as [-> ->] by lia.
  split; apply str_inj; congruence.
Qed.

Lemma codes_distinct_below_1000_witness :
  (1 = 3 ∧ 1 = 3) ∨ (1 = 1 ∧ 3 = 3).
Proof.
  apply (codes_distinct_below_1000 ["1"; "2"; "3"] 1 3 1 3).
  - apply (bool_decide_unpack _). vm_compute. exact I.
  - vm_compute. lia.
  - vm_compute. repeat constructor.
  - vm_compute. repeat constructor.
  - vm_compute. repeat constructor.
  - vm_compute. repeat constructor.
  - reflexivity.
Defined.

Lemma index_new_cats_out all_cats (rank : Z) :
  ¬ (1 ≤ rank ≤ Z.of_nat (length all_cats)) →
  Py.index rank (new_cats_of all_cats) = None.
Proof.
  intros Hout. destruct (Py.index rank (new_cats_of all_cats)) as [i|] eqn:E; [|done].
  apply index_Some in E. pose proof (lookup_lt_Some _ _ _ E) as Hi.
  rewrite new_cats_length in Hi. rewrite new_cats_lookup in E by done.
  injection E as <-. lia.
Qed.

Lemma category_of_rank_out all_cats (rank : Z) :
  ¬ (1 ≤ rank ≤ Z.of_nat (length all_cats)) →
  category_of_rank all_cats (new_cats_of all_cats) rank = raise Py.ValueError.
Proof. intros Hout. unfold category_of_rank. by rewrite index_new_cats_out. Qed.

(** X6.  In a universe of more than 1000 categories codes collide: the
    change from the 1001st category to the first gets the code 2001, which
    is also the code of the change from the first category to the second,
    and it is decoded as the latter. *)
Theorem codes_collide_above_1000 (all_cats : list string) (a b c : Z) :
  NoDup all_cats →
  all_cats !! 0%nat = Some (Py.str b) → all_cats !! 1%nat = Some (Py.str c) →
  all_cats !! 1000%nat = Some (Py.str a) →
  a ≠ b
  ∧ encoded all_cats a b = Some 2001
  ∧ encoded all_cats b c = Some 2001
  ∧ decode all_cats (new_cats_of all_cats) (Py.str 2001)
    = Run [] (Done (Py.str b, Py.str c)).
Proof.
  intros Hnd Hb Hc Ha.
  assert (a ≠ b) as Hab.
  { intros ->. pose proof (NoDup_lookup _ _ _ _ Hnd Ha Hb). done. }
  assert (b ≠ c) as Hbc.
  { intros ->. pose proof (NoDup_lookup _ _ _ _ Hnd Hb Hc). done. }
  split; [done|].
  rewrite (encoded_at all_cats a b 1000 0), (encoded_at all_cats b c 0 1) by done.
  rewrite !decide_False by done. do 2 (split; [done|]).
  pose proof (lookup_lt_Some _ _ _ Ha) as Hlen.
  unfold decode. rewrite int_str, or_raise_Some, bind_ret.
  change (changed_from_reclass 2001) with 1. change (changed_to_reclass 2001) with 2.
  destruct (category_of_rank_ok all_cats 1) as (cf & Hcf & ->); [lia|].
  destruct (category_of_rank_ok all_cats 2) as (ct & Hct & ->); [lia|].
  rewrite !bind_ret. change (Z.to_nat (1 - 1)) with 0%nat in Hcf.
  change (Z.to_nat (2 - 1)) with 1%nat in Hct. by simplify_eq.
Qed.

Lemma codes_collide_above_1000_witness :
  999 ≠ 1
  ∧ encoded thousand_and_one 999 1 = Some 2001
  ∧ encoded thousand_and_one 1 10 = Some 2001
  ∧ decode thousand_and_one (new_cats_of thousand_and_one) (Py.str 2001)
    = Run [] (Done (Py.str 1, Py.str 10)).
Proof.
  apply (codes_collide_above_1000 thousand_and_one 999 1 10).
  - apply (bool_decide_unpack _). vm_compute. exact I.
  - vm_compute. reflexivity.
  - vm_compute. reflexivity.
  - vm_compute. reflexivity.
Defined.

(** X7.  In a universe of 1000 categories or more, a change from the
    1000th category gets a code that is a multiple of 1000; decoding it
    looks for rank 0 in the rank table and raises [ValueError]. *)
Theorem change_from_rank_1000_is_not_decoded (all_cats : list string) (a b : Z) (j : nat) :
  NoDup all_cats →
  all_cats !! 999%nat = Some (Py.str a) → all_cats !! j = Some (Py.str b) → a ≠ b →
  encoded all_cats a b = Some (1000 + 1000 * (Z.of_nat j + 1))
  ∧ decode all_cats (new_cats_of all_cats) (Py.str (1000 + 1000 * (Z.of_nat j + 1)))
    = Run [] (Raised Py.ValueError).
Proof.
  intros Hnd Ha Hb Hab.
  rewrite (encoded_at all_cats a b 999 j), decide_False by done.
  split; [done|].
  unfold decode. rewrite int_str, or_raise_Some, bind_ret.
  assert (changed_from_reclass (1000 + 1000 * (Z.of_nat j + 1)) = 0) as ->.
  { unfold changed_from_reclass.
    replace (1000 + 1000 * (Z.of_nat j + 1)) with (0 + (Z.of_nat j + 2) * 1000) by lia.
    by rewrite Z_mod_plus_full. }
  rewrite (category_of_rank_out all_cats 0) by lia. done.
Qed.

Lemma change_from_rank_1000_is_not_decoded_witness :
  encoded thousand_and_one 998 1 = Some (1000 + 1000 * (Z.of_nat 0 + 1))
  ∧ decode thousand_and_one (new_cats_of thousand_and_one)
      (Py.str (1000 + 1000 * (Z.of_nat 0 + 1)))
    = Run [] (Raised Py.ValueError).
Proof.
  apply (change_from_rank_1000_is_not_decoded thousand_and_one 998 1 0).
  - apply (bool_decide_unpack _). vm_compute. exact I.
  - vm_compute. reflexivity.
  - vm_compute. reflexivity.
  - discriminate.
Defined.

(** ** The decoder and the labelling loop *)


Lemma label_code_invariant all_cats new_cats new_ignore_val labels labellist
    (cd_labels cats_to_ignore : list string) (item : string)
    (cd_labels' cats_to_ignore' : list string) :
  result (label_code all_cats new_cats new_ignore_val labels labellist
            (cd_labels, cats_to_ignore) item) = Done (cd_labels', cats_to_ignore') →
  (∃ line, cd_labels' = cd_labels ++ (if decide (item ≠ "0") then [line] else []))
  ∧ cats_to_ignore'
    = cats_to_ignore
      ++ filter (λ item, to_ignore new_ignore_val item = true) (changes [item]).
Proof.
  unfold label_code, changes. intros Hres.
  destruct (decide (item ≠ "0")) as [Hne|Heq].
  - rewrite filter_cons_True, filter_nil by done.
    apply result_bind in Hres as (? & _ & Hres).
    apply result_bind in Hres as ([changed_from changed_to] & _ & Hres).
    apply result_bind in Hres as ([from_text to_text] & _ & Hres).
    simpl in Hres. injection Hres as <- <-. split; [eauto|].
    destruct (to_ignore new_ignore_val item) eqn:E.
    + by rewrite filter_cons_True.
    + rewrite filter_cons_False by (by rewrite E). by rewrite app_nil_r.
  - rewrite filter_cons_False, filter_nil by done. simpl in Hres.
    injection Hres as <- <-. rewrite !app_nil_r. eauto.
Qed.



Lemma label_code_valid all_cats new_ignore_val (ranks : Z * Z)
    (cd_labels cats_to_ignore : list string) :
  Z.of_nat (length all_cats) < 1000 → valid_ranks all_cats ranks →
  ∃ line cats_to_ignore',
    legend_line all_cats ranks line
    ∧ label_code all_cats (new_cats_of all_cats) new_ignore_val false []
        (cd_labels, cats_to_ignore) (Py.str (code_of ranks))
      = mret (cd_labels ++ [line], cats_to_ignore').
Proof.
  intros Hsize [Hfrom Hto]. destruct ranks as [from_rank to_rank]. simpl in Hfrom, Hto.
  unfold label_code, code_of. cbn [fst snd].
  destruct (ranks_of_code from_rank to_rank) as [Hf Ht]; [lia|].
  destruct (category_of_rank_ok all_cats from_rank Hfrom) as (cf & Hcf & Hrf).
  destruct (category_of_rank_ok all_cats to_rank Hto) as (ct & Hct & Hrt).
  rewrite decide_True.
  2:{ intros H. change "0" with (Py.str 0) in H. apply str_inj in H. lia. }
  unfold decode. rewrite int_str, or_raise_Some, !bind_ret, Hf, Ht, Hrf, bind_ret, Hrt.
  rewrite !bind_ret. eexists _, _. split; [|reflexivity].
  exists cf, ct. done.
Qed.

(** X10.  With categories as labels and fewer than 1000 categories, the
    loop cannot fail on a listing of code 0 and of codes made of two ranks
    of the universe: it skips code 0 and writes for every other code the
    line [code:Change from A to B], A and B being the categories at the
    two ranks. *)
Theorem category_legend (all_cats : list string) (new_ignore_val : option Z)
    (codes : list (Z * Z)) :
  Z.of_nat (length all_cats) < 1000 → Forall (valid_ranks all_cats) codes →
  ∃ lines cats_to_ignore,
    for_each (label_code all_cats (new_cats_of all_cats) new_ignore_val false [])
             ("0" :: ((λ ranks, Py.str (code_of ranks)) <$> codes))
             (["0:No Change"], [])
    = Run [] (Done ("0:No Change" :: lines, cats_to_ignore))
    ∧ Forall2 (legend_line all_cats) codes lines.
Proof.
  intros Hsize Hcodes.
  assert (∀ cd0 ig0,
            ∃ lines ig,
              for_each (label_code all_cats (new_cats_of all_cats) new_ignore_val false [])
                       ((λ ranks, Py.str (code_of ranks)) <$> codes) (cd0, ig0)
              = mret (cd0 ++ lines, ig)
              ∧ Forall2 (legend_line all_cats) codes lines) as Hloop.
  { induction Hcodes as [|ranks codes Hranks Hcodes IH]; intros cd0 ig0.
    - exists [], ig0. rewrite app_nil_r. split; [done|constructor].
    - destruct (label_code_valid all_cats new_ignore_val ranks cd0 ig0 Hsize Hranks)
        as (line & ig1 & Hline & Hstep).
      destruct (IH (cd0 ++ [line]) ig1) as (lines & ig & Hrest & Hlines).
      exists (line :: lines), ig. rewrite fmap_cons. cbn [for_each].
      rewrite Hstep, bind_ret, Hrest, <- app_assoc. split; [done|by constructor]. }
  destruct (Hloop ["0:No Change"] []) as (lines & ig & Hrun & Hlines).
  exists lines, ig. split; [|done].
  cbn [for_each].
  assert (label_code all_cats (new_cats_of all_cats) new_ignore_val false []
            (["0:No Change"], []) "0" = mret (["0:No Change"], [])) as -> by reflexivity.
  by rewrite bind_ret, Hrun.
Qed.

Lemma category_legend_witness :
  ∃ lines cats_to_ignore,
    for_each (label_code ["1"; "2"; "3"] (new_cats_of ["1"; "2"; "3"]) (Some 2) false [])
             ("0" :: ((λ ranks, Py.str (code_of ranks)) <$> [(2, 1); (1, 3)]))
             (["0:No Change"], [])
    = Run [] (Done ("0:No Change" :: lines, cats_to_ignore))
    ∧ Forall2 (legend_line ["1"; "2"; "3"]) [(2, 1); (1, 3)] lines.
Proof.
  apply (category_legend ["1"; "2"; "3"] (Some 2) [(2, 1); (1, 3)]).
  - simpl. lia.
  - repeat constructor; simpl; lia.
Defined.

(** ** Reading the labels *)

Lemma mapM_labels (cats_tmp : list string) :
  mapM (λ s, Py.split Py.tab s !! 1%nat) cats_tmp
  = if decide (Forall has_label cats_tmp) then Some (labels_of cats_tmp) else None.
Proof.
  induction cats_tmp as [|line lines IH]; [done|]. cbn [mapM]. rewrite IH.
  destruct (Py.split Py.tab line !! 1%nat) as [label|] eqn:E; cbn.
  - destruct (decide (Forall has_label lines)) as [Hl|Hl]; cbn.
    + rewrite decide_True; [by rewrite E|].
      constructor; [|done]. unfold has_label. by rewrite E.
    + rewrite decide_False; [done|]. by intros [_ ?]%Forall_cons.
  - rewrite decide_False; [done|].
    intros [[? H] _]%Forall_cons. unfold has_label in *. congruence.
Qed.

(** X11.  What reading the labels ends with: label mode stays on only when
    every line of both listings has a label and there are as many distinct
    labels as distinct categories, and then nothing is written; otherwise
    label mode is switched off with exactly one warning, and no label for
    the ignored areas is kept. *)
Theorem read_labels_outcome (engine : Engine) (ignore : option string)
    (cats_in1 cats_in2 : list string) :
  ∃ warnings labels labellist ignore_label,
    read_labels engine ignore cats_in1 cats_in2
    = Run warnings (Done (labels, labellist, ignore_label))
    ∧ if labels
      then warnings = []
           ∧ Forall has_label (cats_in1_tmp engine)
           ∧ Forall has_label (cats_in2_tmp engine)
           ∧ Py.len_set (labellist.*2) = Py.len_set (labellist.*1)
           ∧ labellist = set_order engine (zip cats_in1 (labels_of (cats_in1_tmp engine))
                                          ++ zip cats_in2 (labels_of (cats_in2_tmp engine)))
      else ignore_label = None
           ∧ (warnings = [Warning ambiguous_warning]
              ∨ warnings = [Warning unlabelled_warning]).
Proof.
  unfold read_labels, second_field. rewrite !mapM_or_raise, !mapM_labels.
  destruct (decide (Forall has_label (cats_in1_tmp engine))) as [H1|H1];
    [|by eexists _, false, _, _; split; [reflexivity|auto]].
  rewrite or_raise_Some, bind_ret.
  destruct (decide (Forall has_label (cats_in2_tmp engine))) as [H2|H2];
    [|by eexists _, false, _, _; split; [reflexivity|auto]].
  rewrite or_raise_Some, bind_ret.
  destruct (Py.len_set _ =? Py.len_set _)%nat eqn:Hcount; cbn [negb];
    [|by eexists _, false, _, _; split; [reflexivity|auto]].
  apply Nat.eqb_eq in Hcount.
  destruct ignore as [str_val|];
    [|by eexists _, true, _, _; split; [reflexivity|auto]].
  destruct (head _) as [label|].
  - rewrite or_raise_Some, bind_ret. by eexists _, true, _, _; split; [reflexivity|auto].
  - by eexists _, false, _, _; split; [reflexivity|auto].
Qed.




Lemma label_of_first (labellist : list (string * string)) (cat : string) :
  (∃ label, (cat, label) ∈ labellist ∧ label_of labellist cat = mret label)
  ∨ ((∀ label, (cat, label) ∉ labellist)
     ∧ label_of labellist cat = raise Py.ValueError).
Proof.
  unfold label_of. destruct (Py.index cat (labellist.*1)) as [i|] eqn:E.
  - left. apply index_Some in E. rewrite list_lookup_fmap in E.
    destruct (labellist !! i) as [[c label]|] eqn:Hi; [|done].
    simpl in E. injection E as ->. exists label. split.
    + eapply list_elem_of_lookup_2; eauto.
    + rewrite or_raise_Some, bind_ret, list_lookup_fmap, Hi. done.
  - right. split; [|done]. intros label Hin. apply index_None in E. apply E.
    apply list_elem_of_fmap. by exists (cat, label).
Qed.

Lemma label_of_perm (l1 l2 : list (string * string)) (cat : string) :
  l1 ≡ₚ l2 → one_label_each l1 → label_of l1 cat = label_of l2 cat.
Proof.
  intros Hperm Hone.
  destruct (label_of_first l1 cat) as [(x1 & Hx1 & ->)|[Hno1 ->]],
           (label_of_first l2 cat) as [(x2 & Hx2 & ->)|[Hno2 ->]]; try done.
  - rewrite <- Hperm in Hx2. by rewrite (Hone cat x1 x2).
  - rewrite Hperm in Hx1. by destruct (Hno2 x1).
  - rewrite <- Hperm in Hx2. by destruct (Hno1 x2).
Qed.

Lemma for_each_ext {A S} (body1 body2 : S → A → run S) (l : list A) (s : S) :
  (∀ s x, body1 s x = body2 s x) → for_each body1 l s = for_each body2 l s.
Proof.
  intros Hext. revert s. induction l as [|x l IH]; intros s; [done|].
  cbn [for_each]. rewrite Hext. destruct (body2 s x) as [t [s'| |]]; try done.
  unfold mbind, run_bind. cbn. by rewrite IH.
Qed.

Lemma head_filter_perm (l1 l2 : list (string * string)) (cat : string) :
  l1 ≡ₚ l2 → one_label_each l1 →
  head ((filter (λ item, item.1 = cat) l1).*2) = head ((filter (λ item, item.1 = cat) l2).*2).
Proof.
  intros Hperm Hone.
  assert (∀ l : list (string * string), one_label_each l →
            ∀ label, head ((filter (λ item, item.1 = cat) l).*2) = Some label →
                     (cat, label) ∈ l) as Hsome.
  { intros l _ label Hhd.
    destruct (filter _ l) as [|[c x] rest] eqn:E; [done|]. injection Hhd as ->.
    assert ((c, label) ∈ filter (λ item, item.1 = cat) l) as Hin by (rewrite E; left).
    apply list_elem_of_filter in Hin as [Hc Hin]. simpl in Hc. by subst. }
  assert (∀ l : list (string * string),
            head ((filter (λ item, item.1 = cat) l).*2) = None →
            ∀ label : string, (cat, label) ∉ l) as Hnone.
  { intros l Hhd label Hin.
    assert ((cat, label) ∈ filter (λ item, item.1 = cat) l) as Hf
      by by apply list_elem_of_filter.
    destruct (filter _ l); [by apply elem_of_nil in Hf|done]. }
  assert (one_label_each l2) as Hone2.
  { intros c x y Hx Hy. rewrite <- Hperm in Hx, Hy. eauto. }
  destruct (head ((filter _ l1).*2)) as [x1|] eqn:E1,
           (head ((filter _ l2).*2)) as [x2|] eqn:E2; try done.
  - apply Hsome in E1, E2; try done. rewrite <- Hperm in E2. f_equal. eauto.
  - apply Hsome in E1; [|done]. rewrite Hperm in E1. by destruct (Hnone _ E2 x1).
  - apply Hsome in E2; [|done]. rewrite <- Hperm in E2. by destruct (Hnone _ E1 x2).
Qed.

Lemma len_set_perm {A} `{EqDecision A} (l1 l2 : list A) :
  l1 ≡ₚ l2 → Py.len_set l1 = Py.len_set l2.
Proof.
  intros Hperm. unfold Py.len_set. apply Permutation_length.
  apply NoDup_Permutation; [apply NoDup_remove_dups..|].
  intros x. rewrite !elem_of_remove_dups. by rewrite Hperm.
Qed.

Lemma bind_ext {A B} (m : run A) (k1 k2 : A → run B) :
  (∀ a, k1 a = k2 a) → (m ≫= k1) = (m ≫= k2).
Proof.
  intros Hext. unfold mbind, run_bind. destruct (result m); [|done..].
  by rewrite Hext.
Qed.

Lemma bind_done_ext {A B} (t : list event) (a1 a2 : A) (k1 k2 : A → run B) :
  k1 a1 = k2 a2 → (Run t (Done a1) ≫= k1) = (Run t (Done a2) ≫= k2).
Proof. intros Heq. unfold mbind, run_bind. cbn. by rewrite Heq. Qed.

Lemma read_labels_orders (engine : Engine) (ignore : option string)
    (order1 order2 : list (string * string) → list (string * string)) :
  set_order_ok order1 → set_order_ok order2 →
  one_label_each (pairs_of (cats_in1_tmp engine) ++ pairs_of (cats_in2_tmp engine)) →
  ∃ warnings labels labellist1 labellist2 ignore_label,
    read_labels (with_set_order engine order1) ignore
      (cats_of (cats_in1_tmp engine)) (cats_of (cats_in2_tmp engine))
    = Run warnings (Done (labels, labellist1, ignore_label))
    ∧ read_labels (with_set_order engine order2) ignore
        (cats_of (cats_in1_tmp engine)) (cats_of (cats_in2_tmp engine))
      = Run warnings (Done (labels, labellist2, ignore_label))
    ∧ (labels = true → labellist1 ≡ₚ labellist2 ∧ one_label_each labellist1).
Proof.
  intros Ho1 Ho2 Hone. unfold set_order_ok in Ho1, Ho2.
  unfold read_labels, second_field.
  cbn [cats_in1_tmp cats_in2_tmp set_order with_set_order].
  rewrite !mapM_or_raise, !mapM_labels.
  destruct (decide (Forall has_label (cats_in1_tmp engine)));
    [|by eexists _, false, [], [], _].
  rewrite !or_raise_Some, !bind_ret.
  destruct (decide (Forall has_label (cats_in2_tmp engine)));
    [|by eexists _, false, [], [], _].
  rewrite !or_raise_Some, !bind_ret.
  fold (pairs_of (cats_in1_tmp engine)). fold (pairs_of (cats_in2_tmp engine)).
  set (pairs := pairs_of _ ++ pairs_of _) in *.
  assert (order1 pairs ≡ₚ order2 pairs) as Hperm by (by rewrite Ho1, Ho2).
  assert (one_label_each (order1 pairs)) as Hone1.
  { intros c x y Hx Hy. rewrite Ho1, elem_of_remove_dups in Hx, Hy.
    by apply (Hone c x y). }
  rewrite (len_set_perm ((order1 pairs).*2) ((order2 pairs).*2)) by (by rewrite Hperm).
  rewrite (len_set_perm ((order1 pairs).*1) ((order2 pairs).*1)) by (by rewrite Hperm).
  destruct (negb _); [by eexists _, false, _, _, _|].
  destruct ignore as [str_val|]; [|by eexists _, true, _, _, _].
  rewrite (head_filter_perm (order1 pairs) (order2 pairs)) by done.
  destruct (head _) as [label|].
  - rewrite !or_raise_Some, !bind_ret. by eexists _, true, _, _, _.
  - by eexists _, false, [], [], _.
Qed.

Lemma label_code_orders all_cats new_cats new_ignore_val (labels : bool)
    (labellist1 labellist2 : list (string * string)) acc item :
  (labels = true → labellist1 ≡ₚ labellist2 ∧ one_label_each labellist1) →
  label_code all_cats new_cats new_ignore_val labels labellist1 acc item
  = label_code all_cats new_cats new_ignore_val labels labellist2 acc item.
Proof.
  intros Hl. unfold label_code. destruct acc as [cd_labels cats_to_ignore].
  destruct labels; [|done]. destruct Hl as [Hperm Hone]; [done|].
  destruct (decide (item ≠ "0")); [|done].
  apply bind_ext. intros _. apply bind_ext. intros [changed_from changed_to].
  by rewrite !(label_of_perm labellist1 labellist2).
Qed.

(** X13.  The order in which the process iterates the set of pairs of
    category and label plays no part when no category has two labels in
    the two layers: the run is the same, command for command. *)
Theorem set_order_irrelevant (options : Options) (flags : Flags) (engine : Engine)
    (order1 order2 : list (string * string) → list (string * string)) :
  set_order_ok order1 → set_order_ok order2 →
  one_label_each (pairs_of (cats_in1_tmp engine) ++ pairs_of (cats_in2_tmp engine)) →
  main options flags (with_set_order engine order1)
  = main options flags (with_set_order engine order2).
Proof.
  intros Ho1 Ho2 Hone. unfold main.
  destruct (Py.split "," (opt_input options)) as [|input0 [|input1 [|? ?]]]; try done.
  cbv zeta.
  cbn [pid cats_in1_tmp cats_in2_tmp cats_cd_tmp old_vals_labels colors_tmp outstr
       csv_before with_set_order].
  apply bind_ext. intros _.
  destruct (flag_l flags); [|done].
  match goal with |- context [read_labels _ ?ignore _ _] =>
    destruct (read_labels_orders engine ignore order1 order2 Ho1 Ho2 Hone)
      as (ws & labels & l1 & l2 & ignore_label & Hr1 & Hr2 & Hl)
  end.
  rewrite Hr1, Hr2. apply bind_done_ext. cbv beta iota.
  apply bind_ext. intros new_ignore_val. do 4 (apply bind_ext; intros _).
  match goal with
  | |- context [for_each (label_code ?ac ?nc ?niv ?lab l1)] =>
      rewrite (for_each_ext (label_code ac nc niv lab l1) (label_code ac nc niv lab l2))
  end; [done|].
  intros acc item. by apply label_code_orders.
Qed.

Lemma set_order_irrelevant_witness :
  main stats_options stats_flags (with_set_order stats_engine remove_dups)
  = main stats_options stats_flags
      (with_set_order stats_engine (λ l, reverse (remove_dups l))).
Proof.
  apply (set_order_irrelevant stats_options stats_flags stats_engine).
  - intros l. reflexivity.
  - intros l. by rewrite reverse_Permutation.
  - intros c x y H1 H2. vm_compute in H1, H2.
    repeat (apply elem_of_cons in H1 as [H1|H1]);
      repeat (apply elem_of_cons in H2 as [H2|H2]);
      try (by apply elem_of_nil in H1); try (by apply elem_of_nil in H2);
      by simplify_eq.
Defined.

(** ** Failures of the dense remapper *)

(** X14.  The dense remapper raises [IndexError] when a line of the listing
    has no colon, and, when a value is to be ignored, [ValueError] when the
    listing is empty (the largest ordinal does not exist) or when a code to
    ignore is not listed.  Without a value to ignore an empty listing gives
    empty tables. *)
Theorem dense_remap_errors (lines : list string)
    (ignore : option (list string * option string)) :
  (Exists (λ line, Py.split ":" line !! 1%nat = None) lines →
   dense_remap lines ignore = Run [] (Raised Py.IndexError))
  ∧ (∀ cats_to_ignore ignore_label,
       dense_remap [] (Some (cats_to_ignore, ignore_label))
       = Run [] (Raised Py.ValueError))
  ∧ (∀ cats_to_ignore ignore_label cat,
       Forall (λ line, is_Some (Py.split ":" line !! 1%nat)) lines →
       cat ∈ cats_to_ignore →
       cat ∉ (λ line, hd "" (Py.split ":" line)) <$> lines →
       dense_remap lines (Some (cats_to_ignore, ignore_label))
       = Run [] (Raised Py.ValueError))
  ∧ dense_remap [] None = Run [] (Done ([], [], None)).
Proof.
  split; [|split; [|split]].
  - intros Hex. unfold dense_remap, second_field.
    rewrite mapM_or_raise. apply mapM_None_2 in Hex. by rewrite Hex.
  - intros cats lbl. unfold dense_remap. cbn [mapM]. rewrite bind_ret.
    rewrite mapM_or_raise. destruct (mapM _ cats) as [idcs|]; [|done].
    by rewrite or_raise_Some, bind_ret.
  - intros cats lbl cat Hlines Hin Hout. unfold dense_remap, second_field.
    rewrite (mapM_or_raise _ _ lines).
    destruct (mapM _ lines) as [old_labels|] eqn:Hlabels.
    2:{ apply mapM_None_1, Exists_exists in Hlabels as (line & Hline & Hnone).
        rewrite Forall_forall in Hlines. pose proof (Hlines line Hline) as Hsome.
        simpl in Hnone. rewrite Hnone in Hsome. by destruct Hsome. }
    rewrite or_raise_Some, bind_ret, mapM_or_raise.
    assert (mapM (λ cat0, Py.index cat0 ((λ s, hd "" (Py.split ":" s)) <$> lines)) cats
            = None) as ->; [|done].
    apply mapM_None_2, Exists_exists. exists cat. split; [done|].
    destruct (Py.index cat _) as [i|] eqn:E; [|done].
    apply index_Some in E. destruct Hout. eapply list_elem_of_lookup_2; eauto.
  - done.
Qed.

Lemma dense_remap_errors_witness :
  dense_remap ["0:No Change"; "1002"] None = Run [] (Raised Py.IndexError)
  ∧ dense_remap ["0:No Change"] (Some (["1002"], None)) = Run [] (Raised Py.ValueError).
Proof.
  split.
  - apply (dense_remap_errors ["0:No Change"; "1002"] None).
    apply Exists_cons_tl, Exists_cons_hd. reflexivity.
  - apply (dense_remap_errors ["0:No Change"] None) with (cat := "1002").
    + repeat constructor. vm_compute. eauto.
    + left.
    + vm_compute. intros H. apply elem_of_cons in H as [H|H]; [discriminate|].
      by apply elem_of_nil in H.
Defined.

(** ** The filter *)





(** ** Where the statistics go *)

Lemma writes_no_file_ret {A} (a : A) : writes_no_file (mret a : run A).
Proof. constructor. Qed.

Lemma writes_no_file_emit (e : event) : not_a_file e → writes_no_file (emit e).
Proof. intros He. by repeat constructor. Qed.

Lemma writes_no_file_or_raise {A} (e : Py.exn) (o : option A) :
  writes_no_file (or_raise e o).
Proof. destruct o; constructor. Qed.

Lemma writes_no_file_bind {A B} (m : run A) (k : A → run B) :
  writes_no_file m → (∀ a, writes_no_file (k a)) → writes_no_file (m ≫= k).
Proof.
  intros Hm Hk. unfold writes_no_file, mbind, run_bind in *.
  destruct (result m); cbn; [|done..]. apply Forall_app. split; [done|apply Hk].
Qed.

Lemma writes_no_file_fmap {A B} (f : A → B) (m : run A) :
  writes_no_file m → writes_no_file (f <$> m).
Proof. intros Hm. apply writes_no_file_bind; [done|]. intros a. constructor. Qed.

Lemma writes_no_file_try_except {A} (m handler : run A) :
  writes_no_file m → writes_no_file handler → writes_no_file (try_except m handler).
Proof.
  intros Hm Hh. unfold writes_no_file, try_except in *.
  destruct (result m); cbn; try done. by apply Forall_app.
Qed.

Lemma writes_no_file_for_each {A S} (body : S → A → run S) (l : list A) (s : S) :
  (∀ s x, writes_no_file (body s x)) → writes_no_file (for_each body l s).
Proof.
  intros Hbody. revert s. induction l as [|x l IH]; intros s; cbn [for_each].
  - constructor.
  - apply writes_no_file_bind; auto.
Qed.

Lemma writes_no_file_mapM {A B} (f : A → run B) (l : list A) :
  (∀ x, writes_no_file (f x)) → writes_no_file (mapM f l).
Proof.
  intros Hf. induction l as [|x l IH]; cbn [mapM].
  - constructor.
  - apply writes_no_file_bind; [done|]. intros y.
    apply writes_no_file_bind; [done|]. intros k. constructor.
Qed.

(** Splits a goal [writes_no_file r] along the structure of [r]. *)
Ltac writes_no_file_step :=
  match goal with
  | |- writes_no_file (mret _) => apply writes_no_file_ret
  | |- writes_no_file (emit _) => apply writes_no_file_emit; exact I
  | |- writes_no_file (raise _) => constructor
  | |- writes_no_file (or_raise _ _) => apply writes_no_file_or_raise
  | |- writes_no_file (_ <$> _) => apply writes_no_file_fmap
  | |- writes_no_file (try_except _ _) => apply writes_no_file_try_except
  | |- writes_no_file (for_each _ _ _) => apply writes_no_file_for_each; intros ? ?
  | |- writes_no_file (mapM _ _) => apply writes_no_file_mapM; intros ?
  | |- writes_no_file (_ ≫= _) => apply writes_no_file_bind; [|intros ?]
  | |- writes_no_file (if ?b then _ else _) => destruct b
  | |- writes_no_file (match ?x with _ => _ end) => destruct x
  | |- writes_no_file (let '(_, _) := ?x in _) => destruct x
  end.

(** X16.  The script writes a file only when [csv_path] is given and is
    not [-]: in every other call no file is written, however the run
    ends. *)
Theorem no_path_no_file (options : Options) (flags : Flags) (engine : Engine) :
  opt_csv_path options = "" ∨ opt_csv_path options = "-" →
  writes_no_file (main options flags engine).
Proof.
  intros Hpath. unfold main.
  assert (Py.truthy (opt_csv_path options)
          && negb (String.eqb (opt_csv_path options) "-") = false) as Hfile.
  { by destruct Hpath as [-> | ->]. }
  destruct (Py.split "," (opt_input options)) as [|input0 [|input1 [|? ?]]];
    try constructor.
  cbv zeta. rewrite Hfile.
  unfold reclassify, reclass_string, read_labels, label_code, decode,
    category_of_rank, label_of, dense_remap, second_field.
  repeat writes_no_file_step.
Qed.

Lemma no_path_no_file_witness :
  writes_no_file (main gap_options gap_flags gap_engine).
Proof. apply (no_path_no_file gap_options gap_flags gap_engine). by left. Defined.

(** X17.  With the flag [-c] and no file to write to ([csv_path] left out
    or [-]), a run that ends normally ends by printing the header line
    and, on the next line, what [r.stats] printed, and by the message
    about the output map. *)
Theorem statistics_on_stdout (options : Options) (flags : Flags) (engine : Engine) :
  result (main options flags engine) = Done () →
  flag_c flags = true →
  opt_csv_path options = "" ∨ opt_csv_path options = "-" →
  ∃ before,
    trace (main options flags engine)
    = before
      ++ [Print ("raster value|label|percentage of covered area" +:+ Py.nl
                 +:+ outstr engine);
          Message ("Generated output map <" +:+ opt_output options +:+ ">")].
Proof.
  intros Hres Hc Hpath. revert Hres.
  change (ends_with
    [Print ("raster value|label|percentage of covered area" +:+ Py.nl +:+ outstr engine);
     Message ("Generated output map <" +:+ opt_output options +:+ ">")]
    (main options flags engine)).
  assert (Py.truthy (opt_csv_path options)
          && negb (String.eqb (opt_csv_path options) "-") = false) as Hfile.
  { by destruct Hpath as [-> | ->]. }
  unfold main.
  destruct (Py.split "," (opt_input options)) as [|input0 [|input1 [|? ?]]];
    try (intros ?; discriminate).
  cbv zeta. rewrite Hfile, Hc.
  repeat match goal with
         | |- ends_with _ (emit (Print _) ≫= _) => fail 1
         | |- ends_with _ (_ ≫= _) => apply ends_with_bind; intros ?
         | |- ends_with _ (let '(_, _) := ?x in _) => destruct x
         end.
  intros _. by exists [].
Qed.

Lemma statistics_on_stdout_witness :
  ∃ before,
    trace (main gap_options stdout_flags gap_engine)
    = before
      ++ [Print ("raster value|label|percentage of covered area" +:+ Py.nl
                 +:+ outstr gap_engine);
          Message ("Generated output map <" +:+ opt_output gap_options +:+ ">")].
Proof.
  apply (statistics_on_stdout gap_options stdout_flags gap_engine).
  - vm_compute. reflexivity.
  - reflexivity.
  - by left.
Defined.

(** ** [cleanup] *)


(** ** Runs on a consistent engine *)

Lemma labelling_loop_done all_cats new_ignore_val (items : list string) :
  Z.of_nat (length all_cats) < 1000 → Forall (listed_code all_cats) items →
  ∀ cd0 ig0,
    ∃ cd ig,
      for_each (label_code all_cats (new_cats_of all_cats) new_ignore_val false [])
               items (cd0, ig0) = mret (cd, ig)
      ∧ (∀ cat, cat ∈ ig → cat ∈ ig0 ∨ cat ∈ items).
Proof.
  intros Hsize Hitems. induction Hitems as [|item items Hitem Hitems IH]; intros cd0 ig0.
  - exists cd0, ig0. split; [done|auto].
  - cbn [for_each].
    assert (∃ cd1 ig1,
              label_code all_cats (new_cats_of all_cats) new_ignore_val false []
                (cd0, ig0) item = mret (cd1, ig1)
              ∧ (∀ cat, cat ∈ ig1 → cat ∈ ig0 ∨ cat = item)) as (cd1 & ig1 & -> & Hig1).
    { destruct Hitem as [-> | (ranks & Hranks & ->)].
      - exists cd0, ig0. split; [done|auto].
      - destruct (label_code_valid all_cats new_ignore_val ranks cd0 ig0 Hsize Hranks)
          as (line & ig1 & _ & Hstep).
        exists (cd0 ++ [line]), ig1. split; [done|].
        assert (result (label_code all_cats (new_cats_of all_cats) new_ignore_val false []
                          (cd0, ig0) (Py.str (code_of ranks)))
                = Done (cd0 ++ [line], ig1)) as Hres by (by rewrite Hstep).
        apply label_code_invariant in Hres as [_ ->].
        intros cat [?|Hin]%elem_of_app; [auto|]. right.
        apply list_elem_of_filter in Hin as [_ Hin]. unfold changes in Hin.
        apply list_elem_of_filter in Hin as [_ Hin].
        apply elem_of_cons in Hin as [?|Hin]; [done|]. by apply elem_of_nil in Hin. }
    rewrite bind_ret. destruct (IH cd1 ig1) as (cd & ig & -> & Hig).
    exists cd, ig. split; [done|]. intros cat Hcat.
    destruct (Hig cat Hcat) as [Hin|Hin]; [|right; by right].
    destruct (Hig1 cat Hin) as [? | ->]; [by left|right; left].
Qed.

Lemma dense_remap_done (lines : list string)
    (ignore : option (list string * option string)) :
  Forall has_colon lines →
  (∀ cats_to_ignore ignore_label, ignore = Some (cats_to_ignore, ignore_label) →
     lines ≠ []
     ∧ ∀ cat, cat ∈ cats_to_ignore → cat ∈ (λ s, hd "" (Py.split ":" s)) <$> lines) →
  ∃ out_vals_labels ignore_out_cat,
    dense_remap lines ignore
    = mret ((λ s, hd "" (Py.split ":" s)) <$> lines, out_vals_labels, ignore_out_cat)
    ∧ length out_vals_labels = length lines.
Proof.
  intros Hlines Hignore. unfold dense_remap, second_field.
  rewrite (mapM_or_raise _ _ lines).
  destruct (mapM _ lines) as [old_labels|] eqn:Hlabels.
  2:{ apply mapM_None_1, Exists_exists in Hlabels as (line & Hline & Hnone).
      rewrite Forall_forall in Hlines. pose proof (Hlines line Hline) as Hsome.
      unfold has_colon in Hsome. simpl in Hnone. rewrite Hnone in Hsome.
      by destruct Hsome. }
  pose proof (length_mapM _ _ _ Hlabels) as Hlen.
  rewrite or_raise_Some, bind_ret.
  assert (∀ f : Z → string → string,
            length (zip_with f (Z.of_nat <$> seq 0 (length lines)) old_labels)
            = length lines) as Hzip.
  { intros f. rewrite length_zip_with, length_fmap, length_seq. lia. }
  destruct ignore as [[cats lbl]|]; [|by eexists _, _].
  destruct (Hignore cats lbl eq_refl) as [Hne Hcats].
  rewrite mapM_or_raise.
  destruct (mapM _ cats) as [idcs|] eqn:Hidcs.
  2:{ apply mapM_None_1, Exists_exists in Hidcs as (cat & Hcat & Hnone).
      apply Hcats, index_elem in Hcat. simpl in Hnone. rewrite Hnone in Hcat.
      by destruct Hcat. }
  rewrite or_raise_Some, bind_ret.
  destruct (last (Z.of_nat <$> seq 0 (length lines))) as [max_out_val|] eqn:Hmax.
  2:{ rewrite fmap_last, last_lookup, length_seq in Hmax.
      destruct lines as [|line lines']; [done|]. simpl length in Hmax.
      rewrite lookup_seq_lt in Hmax by lia. done. }
  rewrite or_raise_Some, bind_ret. eexists _, _. split; [reflexivity|].
  assert (∀ l0 : list string,
            length (foldl (λ (acc : list string) (index : nat),
                             <[index:=ignored_rule (max_out_val + 10) lbl]> acc) l0 idcs)
            = length l0) as Hfold.
  { clear. induction idcs as [|i idcs IH]; intros l0; [done|].
    cbn [foldl]. by rewrite IH, length_insert. }
  by rewrite Hfold, Hzip.
Qed.

Lemma result_bind_done {A B} (t : list event) (a : A) (k : A → run B) :
  result (Run t (Done a) ≫= k) = result (k a).
Proof. done. Qed.

Lemma result_bind_emit {B} (e : event) (k : () → run B) :
  result (emit e ≫= k) = result (k ()).
Proof. done. Qed.

(** X19.  Without label mode and without a file to write, a run on a
    consistent engine ends normally, whatever the flags and the value to
    ignore: two input maps, fewer than 1000 categories, an integer window
    size if the filter is on, a change raster that holds code 0 or codes of
    two ranks of the universe, and a second listing of it that has the same
    codes, each with a colon and a label, and is not empty.  None of the
    look-ups of the decoder and of the dense remapper fails. *)
Theorem consistent_run_ends_normally (options : Options) (flags : Flags)
    (engine : Engine) (input0 input1 : string) :
  Py.split "," (opt_input options) = [input0; input1] →
  flag_l flags = false →
  (flag_f flags = true → is_Some (Py.int (opt_window_size options))) →
  opt_csv_path options = "" ∨ opt_csv_path options = "-" →
  let all_cats := all_cats_of (cats_of (cats_in1_tmp engine))
                              (cats_of (cats_in2_tmp engine)) in
  Z.of_nat (length all_cats) < 1000 →
  Forall (listed_code all_cats) (cats_cd_tmp engine) →
  Forall has_colon (old_vals_labels engine) →
  (λ s, hd "" (Py.split ":" s)) <$> old_vals_labels engine = cats_cd_tmp engine →
  old_vals_labels engine ≠ [] →
  result (main options flags engine) = Done ().
Proof.
  intros Hsplit Hl Hwindow Hpath all_cats Hsize Hcodes Hcolon Hsame Hne.
  assert (Py.truthy (opt_csv_path options)
          && negb (String.eqb (opt_csv_path options) "-") = false) as Hfile.
  { by destruct Hpath as [-> | ->]. }
  unfold main. rewrite Hsplit, Hl, Hfile. cbv zeta. fold all_cats.
  set (new_cats := new_cats_of all_cats).
  set (str_val := opt_ignore_value options).
  set (exists_ := Py.truthy str_val && _).
  (* the warning about the value to ignore *)
  assert (∃ ws1,
            (if Py.truthy str_val && negb exists_
             then emit (Warning ("Value to ignore (" +:+ str_val
                                 +:+ ") does not exist in input maps"))
             else mret ()) = Run ws1 (Done ())) as (ws1 & ->).
  { destruct (Py.truthy str_val && negb exists_); eauto. }
  rewrite result_bind_done, bind_ret.
  (* the rank of the value to ignore *)
  assert (∃ new_ignore_val,
            (if exists_
             then ignore_idx ← or_raise Py.ValueError (Py.index str_val all_cats);
                  Some <$> or_raise Py.IndexError (new_cats !! ignore_idx)
             else mret None) = mret new_ignore_val) as [new_ignore_val ->].
  { destruct exists_ eqn:Hex; [|eauto].
    assert (str_val ∈ all_cats) as [i Hi]%index_elem.
    { apply all_cats_elem. unfold exists_ in Hex.
      apply andb_true_iff in Hex as [_ [H|H]%orb_true_iff];
        apply bool_decide_eq_true in H; auto. }
    rewrite Hi, or_raise_Some, bind_ret.
    apply index_Some, lookup_lt_Some in Hi.
    unfold new_cats. rewrite new_cats_lookup by done. eauto. }
  rewrite bind_ret.
  (* the two reclassifications and the change raster *)
  rewrite !reclassify_spec
    by (unfold new_cats_t1000_of, new_cats; rewrite ?length_fmap, new_cats_length; done).
  rewrite !result_bind_emit.
  (* the filter *)
  assert (∃ e,
            (if flag_f flags
             then window_size ← or_raise Py.ValueError (Py.int (opt_window_size options));
                  emit (RunCommand "r.neighbors"
                          [("input", opt_output options +:+ "_" +:+ pid engine);
                           ("output", opt_output options +:+ "_temp2_" +:+ pid engine);
                           ("size", Py.str window_size); ("method", "mode")])
             else emit (RunCommand "g.rename"
                          [("raster", (opt_output options +:+ "_" +:+ pid engine)
                                      +:+ "," +:+ opt_output options +:+ "_temp2_"
                                      +:+ pid engine)])) = emit e) as [e ->].
  { destruct (flag_f flags); [|eauto].
    destruct Hwindow as [w ->]; [done|]. rewrite or_raise_Some, bind_ret. eauto. }
  rewrite result_bind_emit.
  (* the legend *)
  subst new_cats.
  destruct (labelling_loop_done all_cats new_ignore_val (cats_cd_tmp engine) Hsize Hcodes
              ["0:No Change"] []) as (cd_labels & cats_to_ignore & -> & Hignored).
  rewrite bind_ret, result_bind_emit.
  (* the dense remapper and the final reclassification *)
  destruct (dense_remap_done (old_vals_labels engine)
              (if exists_ then Some (cats_to_ignore, None) else None) Hcolon)
    as (out_vals_labels & ignore_out_cat & -> & Hlen).
  { intros cats lbl Heq. split; [done|]. intros cat Hcat. rewrite Hsame.
    destruct exists_; [|done]. injection Heq as <- _.
    destruct (Hignored cat Hcat) as [Hin|Hin]; [by apply elem_of_nil in Hin|done]. }
  rewrite bind_ret, reclassify_spec by (by rewrite length_fmap, Hlen).
  rewrite !result_bind_emit.
  (* the statistics *)
  destruct (flag_c flags); by rewrite ?bind_ret, ?result_bind_emit.
Qed.

Lemma consistent_run_ends_normally_witness :
  result (main gap_options gap_flags gap_engine) = Done ().
Proof.
  apply (consistent_run_ends_normally gap_options gap_flags gap_engine "lu96" "lu06").
  - vm_compute. reflexivity.
  - reflexivity.
  - discriminate.
  - by left.
  - vm_compute. reflexivity.
  - apply Forall_cons. split; [by left|].
    apply Forall_cons. split.
    { right. exists (2, 1). split; [split; vm_compute; intuition discriminate|reflexivity]. }
    apply Forall_cons. split; [|constructor].
    right. exists (1, 3). split; [split; vm_compute; intuition discriminate|reflexivity].
  - repeat constructor; vm_compute; eauto.
  - reflexivity.
  - discriminate.
Defined.
